(** * caldav/objects.py: the DAV object layer, embedded and verified

    A shallow embedding of [caldav/objects.py] (DAVObject, CalendarSet,
    Principal, Calendar, CalendarObjectResource) together with the
    properties stated about it.

    Conventions of the embedding.
    - Python [None] is [option]'s [None]; a [str] is a [string].
    - An exception is a value of [exn]; a method that performs requests or
      mutates [self] runs in the monad [M S], which keeps the state reached
      when an exception is raised (as Python does).
    - The HTTP transport, the server behind it and [uuid.uuid1] are an
      environment [Env]; every request issued is appended to a log.
    - [caldav.lib.url.URL], [vobject], [caldav.lib.vcal] and
      [caldav.lib.python_utilities] are interfaces ([UrlLib], [VObjectLib]):
      every theorem holds for all their implementations. *)

From Stdlib Require Import String Ascii List ZArith Bool Lia.
Import ListNotations.

Set Implicit Arguments.
Local Open Scope string_scope.
Local Open Scope list_scope.

(* ------------------------------------------------------------------ *)
(** ** Python strings *)

Module PyStr.

(** [s.endswith(suffix)]: [suffix] is a tail of [s]. *)
Fixpoint endswith (s suffix : string) : bool :=
  String.eqb s suffix ||
  match s with
  | EmptyString => false
  | String _ s' => endswith s' suffix
  end.

(** [s.startswith(p)] *)
Definition startswith (s p : string) : bool := String.prefix p s.

(** Truth value of a [str]: non-empty. *)
Definition truthy (s : string) : bool :=
  match s with EmptyString => false | _ => true end.

(** Truth value of an optional [str] ([None] and [''] are false). *)
Definition otruthy (o : option string) : bool :=
  match o with Some s => truthy s | None => false end.

(** The double quote character, code 34. *)
Definition dquote : string :=
  String (Ascii false true false false false true false false) EmptyString.

(** The newline character, code 10. *)
Definition newline : ascii :=
  Ascii false true false true false false false false.

End PyStr.

(* ------------------------------------------------------------------ *)
(** ** The regular expression of [CalendarObjectResource._create]

    The source searches its path for the pattern made of three parts: a
    first group that is a slash or the start of the subject, a second group
    that is a greedy run of non-slash characters, and then one arbitrary
    character (an unescaped dot) followed by the letters ics.  It reads
    group 2 of the match.  The model follows Python's backtracking matcher:
    start positions are tried from left to right; at a position the slash
    alternative is tried before the start anchor; the greedy run gives
    characters back one at a time; the dot is any character but a newline. *)

Module Re.

(** [.ics] matched at the head of [s]. *)
Definition dot_ics (s : string) : bool :=
  match s with
  | String c rest => negb (Ascii.eqb c PyStr.newline) && String.prefix "ics" rest
  | EmptyString => false
  end.

(** Group 2 followed by [.ics], matched at the head of [s]: the text of
    the group, for the longest run of non-slash characters that lets
    [.ics] follow. *)
Fixpoint group2_at (s : string) : option string :=
  match s with
  | EmptyString => None
  | String c rest =>
      if Ascii.eqb c "/" then (if dot_ics s then Some "" else None)
      else match group2_at rest with
           | Some g => Some (String c g)
           | None => if dot_ics s then Some "" else None
           end
  end.

(** The whole pattern tried at the head of [s]; [at_start] says whether
    this position is the start of the subject ([^]). *)
Definition match_here (at_start : bool) (s : string) : option string :=
  let alt_slash :=
    match s with
    | String c rest => if Ascii.eqb c "/" then group2_at rest else None
    | EmptyString => None
    end in
  match alt_slash with
  | Some g => Some g
  | None => if at_start then group2_at s else None
  end.

Fixpoint search_from (at_start : bool) (s : string) : option string :=
  match match_here at_start s with
  | Some g => Some g
  | None =>
      match s with
      | String _ rest => search_from false rest
      | EmptyString => None
      end
  end.

(** [re.search(pattern, s)], reduced to its group 2; [None] when there is
    no match. *)
Definition search_ics_group2 (s : string) : option string :=
  search_from true s.

End Re.

(* ------------------------------------------------------------------ *)
(** ** Element trees (lxml.etree), as far as the code uses them *)

Module ET.

#[local] Unset Elimination Schemes.
Inductive xml : Type :=
| Element (tag : string) (attrib : list (string * string))
          (text : option string) (children : list xml).
#[local] Set Elimination Schemes.

Definition tag (e : xml) : string := let 'Element t _ _ _ := e in t.
Definition attrib (e : xml) := let 'Element _ a _ _ := e in a.
Definition text (e : xml) : option string := let 'Element _ _ x _ := e in x.
Definition children (e : xml) : list xml := let 'Element _ _ _ c := e in c.

(** All elements below [e], in document order ([e] itself excluded). *)
Fixpoint descendants (e : xml) : list xml :=
  match e with
  | Element _ _ _ cs =>
      (fix go (l : list xml) : list xml :=
         match l with
         | [] => []
         | c :: l' => c :: descendants c ++ go l'
         end) cs
  end.

(** [e.findall('.//' + t)] *)
Definition findall (e : xml) (t : string) : list xml :=
  filter (fun d => String.eqb (tag d) t) (descendants e).

(** [e.find('.//' + t)] *)
Definition find (e : xml) (t : string) : option xml :=
  hd_error (findall e t).

(** [e.find('.//*')] *)
Definition find_any (e : xml) : option xml := hd_error (descendants e).

(** The two attributes the code reads through [getattr(val, what)]. *)
Inductive what_attr : Type := what_text | what_tag.

Definition getattr (e : xml) (what : what_attr) : option string :=
  match what with
  | what_text => text e
  | what_tag => Some (tag e)
  end.

(** [parent + children] of caldav.elements: append sub-elements. *)
Definition add (parent : xml) (cs : list xml) : xml :=
  let 'Element t a x c := parent in Element t a x (c ++ cs).

End ET.

(* ------------------------------------------------------------------ *)
(** ** Python dictionaries, in insertion order *)

Module Dict.
Section Dict.
Context {K V : Type} (eqb : K -> K -> bool).

Definition t : Type := list (K * V).

Definition empty : t := [].

(** [d[k] = v] *)
Fixpoint set (k : K) (v : V) (d : t) : t :=
  match d with
  | [] => [(k, v)]
  | (k', v') :: d' =>
      if eqb k k' then (k', v) :: d' else (k', v') :: set k v d'
  end.

(** [d[k]], [None] standing for [KeyError] *)
Fixpoint get (k : K) (d : t) : option V :=
  match d with
  | [] => None
  | (k', v') :: d' => if eqb k k' then Some v' else get k d'
  end.

(** [d.keys()] *)
Definition keys (d : t) : list K := map fst d.

(** [k in d] *)
Definition mem (k : K) (d : t) : bool := existsb (eqb k) (keys d).
End Dict.
End Dict.

Definition okey_eqb (a b : option string) : bool :=
  match a, b with
  | Some x, Some y => String.eqb x y
  | None, None => true
  | _, _ => false
  end.

(* ------------------------------------------------------------------ *)
(** ** Collaborators that are not part of objects.py *)

(** What Python passes where a URL is expected: [None], a [str] or a URL
    object. *)
Inductive pyurl (URL : Type) : Type :=
| UNone
| UStr (s : string)
| UObj (u : URL).
Arguments UNone {URL}.
Arguments UStr {URL} s.
Arguments UObj {URL} u.

(** The interface of [caldav.lib.url.URL] that objects.py relies on. *)
Class UrlLib : Type := {
  URL : Type;
  url_of_str : string -> URL;                (* URL(s) for a str *)
  url_str : URL -> string;                   (* str(u) *)
  url_bool : URL -> bool;                    (* truth value of u *)
  url_path : URL -> string;                  (* u.path *)
  url_hostname : URL -> option string;       (* u.hostname *)
  url_join : URL -> pyurl URL -> URL;        (* u.join(p) *)
  url_strip_trailing_slash : URL -> URL;     (* u.strip_trailing_slash() *)
  url_eq : URL -> URL -> bool;               (* u == v; u != v is its negation *)
  url_endswith : URL -> string -> bool       (* u.endswith(s) *)
}.

(** The interface of the iCalendar codec ([vobject]) and of the text helpers
    [caldav.lib.vcal.fix] and [caldav.lib.python_utilities.to_unicode]. *)
Class VObjectLib : Type := {
  vinstance : Type;                          (* a parsed component tree *)
  vcomponent : Type;                         (* one component of it *)
  readOne : string -> option vinstance;      (* None: the parser raises *)
  serialize : vinstance -> string;           (* inst.serialize() *)
  component : vinstance -> string -> option vcomponent;
                                             (* hasattr / getattr(inst, name) *)
  uid_value : vcomponent -> option string;   (* comp.uid.value *)
  vcal_fix : string -> string;               (* vcal.fix *)
  to_unicode : string -> string              (* to_unicode *)
}.

(** Modelled from the spec: [caldav.lib.url] is not among the sources.
    [URL.objectify] turns its argument into a URL object; [None] stays
    [None] (the source tests [self.url is None] after it) and a URL object
    stays itself. *)
Definition objectify `{UrlLib} (x : pyurl URL) : option URL :=
  match x with
  | UNone => None
  | UStr s => Some (url_of_str s)
  | UObj u => Some u
  end.

(** Truth value of a value passed as a URL. *)
Definition pyurl_bool `{UrlLib} (x : pyurl URL) : bool :=
  match x with
  | UNone => false
  | UStr s => PyStr.truthy s
  | UObj u => url_bool u
  end.

Definition pyurl_of_ostr `{UrlLib} (o : option string) : pyurl URL :=
  match o with Some s => UStr s | None => UNone end.

(** Modelled from the spec: [caldav.elements] is not among the sources.  The
    tags are the names of the WebDAV namespace [DAV:] and of the CalDAV
    namespace [urn:ietf:params:xml:ns:caldav] in the notation the source
    spells out for current-user-principal and calendar-home-set. *)
Module Tags.
Definition D (n : string) : string := "{DAV:}" ++ n.
Definition C (n : string) : string := "{urn:ietf:params:xml:ns:caldav}" ++ n.

Definition Response := D "response".
Definition Status := D "status".
Definition Href := D "href".
Definition Prop_ := D "prop".
Definition Propfind := D "propfind".
Definition PropertyUpdate := D "propertyupdate".
Definition Set_ := D "set".
Definition ResourceType := D "resourcetype".
Definition DisplayName := D "displayname".
Definition Collection := D "collection".
Definition CurrentUserPrincipal := D "current-user-principal".
Definition Calendar := C "calendar".
Definition CalendarData := C "calendar-data".
Definition CalendarHomeSet := C "calendar-home-set".
Definition CalendarQuery := C "calendar-query".
Definition Mkcalendar := C "mkcalendar".
Definition SupportedCalendarComponentSet := C "supported-calendar-component-set".
Definition Comp := C "comp".
Definition Filter := C "filter".
Definition CompFilter := C "comp-filter".
Definition PropFilter := C "prop-filter".
Definition TextMatch := C "text-match".
End Tags.

(** Element constructors of [caldav.elements]: an empty element, an element
    with a value, an element with a [name] attribute. *)
Definition elem (t : string) : ET.xml := ET.Element t [] None [].
Definition valued (t : string) (v : string) : ET.xml := ET.Element t [] (Some v) [].
Definition named (t : string) (n : string) : ET.xml :=
  ET.Element t [("name", n)] None [].

(* ------------------------------------------------------------------ *)
(** ** Exceptions *)

Inductive exn : Type :=
| NotFoundError (raw : string)
| ReportError (raw : string)
| PropsetError (raw : string)
| PutError (raw : string)
| DeleteError (raw : string)
| MkcalendarError (raw : string)
| PropfindError (raw : string)
| ProppatchError (raw : string)
| Exception (msg : string)
| ParseError
| AttributeError
| TypeError
| IndexError
| KeyError.

Inductive query_method : Type := propfind | proppatch | mkcalendar | report.

(** Modelled from the spec: [caldav.lib.error] is not among the sources.
    The internal query primitive maps a failing status "to a verb-specific
    error kind"; for REPORT that kind is ReportError. *)
Definition exception_by_method (m : query_method) : string -> exn :=
  match m with
  | propfind => PropfindError
  | proppatch => ProppatchError
  | mkcalendar => MkcalendarError
  | report => ReportError
  end.

Inductive result (A : Type) : Type :=
| Ok (a : A)
| Raise (e : exn).
Arguments Ok {A} a.
Arguments Raise {A} e.

(* ------------------------------------------------------------------ *)
(** ** The state-and-exception monad

    [M S A]: a computation over a state [S] that returns an [A] or raises;
    the state reached is kept in both cases. *)

Definition M (S A : Type) : Type := S -> result A * S.

Definition ret {S A} (a : A) : M S A := fun s => (Ok a, s).

Definition raise {S A} (e : exn) : M S A := fun s => (Raise e, s).

Definition bind {S A B} (m : M S A) (k : A -> M S B) : M S B :=
  fun s =>
    match m s with
    | (Ok a, s') => k a s'
    | (Raise e, s') => (Raise e, s')
    end.

(** [try: body except: handler] (the handler sees the exception). *)
Definition try_except {S A} (body : M S A) (handler : exn -> M S A) : M S A :=
  fun s =>
    match body s with
    | (Ok a, s') => (Ok a, s')
    | (Raise e, s') => handler e s'
    end.

Definition get {S} : M S S := fun s => (Ok s, s).
Definition put {S} (s : S) : M S unit := fun _ => (Ok tt, s).

(** A value that may be an exception, used as a computation. *)
Definition lift {S A} (r : result A) : M S A := fun s => (r, s).

(** [x.attr] on an optional object: AttributeError on [None]. *)
Definition deref {S A} (o : option A) : M S A :=
  match o with
  | Some a => ret a
  | None => raise AttributeError
  end.

(** [d[k]]: KeyError on a missing key. *)
Definition subscript {S A} (o : option A) : M S A :=
  match o with
  | Some a => ret a
  | None => raise KeyError
  end.

(** Methods that assign attributes of [self] run over the pair of [self]
    and the world. *)
Definition get_self {Self W} : M (Self * W) Self := fun s => (Ok (fst s), s).

Definition modify_self {Self W} (f : Self -> Self) : M (Self * W) unit :=
  fun s => (Ok tt, (f (fst s), snd s)).

Definition get_world {Self W} : M (Self * W) W := fun s => (Ok (snd s), s).

Definition modify_world {Self W} (f : W -> W) : M (Self * W) unit :=
  fun s => (Ok tt, (fst s, f (snd s))).

(** A computation on the world alone, run by a method of [self]. *)
Definition in_world {Self W A} (m : M W A) : M (Self * W) A :=
  fun s => let (r, w') := m (snd s) in (r, (fst s, w')).

(** A constructor call [C(...)] whose body is a method acting on the fresh
    object. *)
Definition construct {Self W A} (self0 : Self) (m : M (Self * W) A) : M W Self :=
  fun w =>
    match m (self0, w) with
    | (Ok _, (self1, w')) => (Ok self1, w')
    | (Raise e, (_, w')) => (Raise e, w')
    end.

Declare Scope py_scope.
Delimit Scope py_scope with py.
Notation "x <- m ;; k" := (bind m (fun x => k))
  (at level 100, m at next level, right associativity) : py_scope.
Notation "m ;;; k" := (bind m (fun _ => k))
  (at level 100, right associativity) : py_scope.
Local Open Scope py_scope.

(* ------------------------------------------------------------------ *)
(** ** The session: transport, server and request log *)

(** What the transport returns for a request. *)
Record response : Type := {
  status : Z;
  headers : list (string * string);
  raw : string;
  tree : option ET.xml          (* the parsed body; None when there is none *)
}.

(** A DAVClient object; one session is modelled. *)
Inductive client_ref : Type := the_client.

Section Session.
Context `{U : UrlLib}.

(** The calls objects.py makes on its client. *)
Inductive request : Type :=
| Query (m : query_method) (url : option URL) (body : option ET.xml) (depth : Z)
    (* client.propfind / proppatch / mkcalendar / report (url, body, depth);
       the body is the element tree that is serialized, None for "" *)
| Put (url : URL) (body : string) (hdrs : list (string * string))
| Delete (url : URL)
| Get (url : URL).            (* client.request(url) *)

(** The world outside the program: the server answers a request knowing
    all requests made so far (the answered request is the last of the
    list); [uuid1 n] is the n-th value drawn from [uuid.uuid1()]. *)
Record Env : Type := {
  server : list request -> response;
  uuid1 : nat -> string
}.

(** The mutable session state shared by all objects: [client.url], the
    requests issued so far, the number of uuids drawn. *)
Record World : Type := {
  client_url : URL;
  log : list request;
  uuids : nat
}.

Definition set_client_url (u : URL) (w : World) : World :=
  {| client_url := u; log := log w; uuids := uuids w |}.

Variable env : Env.

(** The world after one more request. *)
Definition logged (req : request) (w : World) : World :=
  {| client_url := client_url w; log := log w ++ [req]; uuids := uuids w |}.

(** One round trip. *)
Definition client_call (req : request) : M World response :=
  fun w => (Ok (server env (log (logged req w))), logged req w).

(** [str(uuid.uuid1())] *)
Definition fresh_uuid : M World string :=
  fun w =>
    (Ok (uuid1 env (uuids w)),
     {| client_url := client_url w; log := log w; uuids := S (uuids w) |}).
End Session.

(* ------------------------------------------------------------------ *)
(** ** class DAVObject *)

Module DAVObject.
Section Methods.
Context `{U : UrlLib}.
Variable env : Env.

(** The attributes of a DAV object.  [parent] is the parent object as it
    was when the reference was taken; [extra_init_options] holds the one
    extra keyword the constructors are called with,
    supported_calendar_component_set. *)
#[local] Unset Elimination Schemes.
Inductive t : Type := mk {
  id : option string;
  url : option URL;
  client : option client_ref;
  parent : option t;
  name : option string;
  extra_init_options : option (list string)
}.
#[local] Set Elimination Schemes.

Definition set_url (u : option URL) (o : t) : t :=
  mk (id o) u (client o) (parent o) (name o) (extra_init_options o).
Definition set_id (i : option string) (o : t) : t :=
  mk i (url o) (client o) (parent o) (name o) (extra_init_options o).

(** [DAVObject.__init__] *)
Definition init (client_ : option client_ref) (url_ : pyurl URL)
    (parent_ : option t) (name_ id_ : option string)
    (extra : option (list string)) : M World t :=
  let client_ :=
    match client_, parent_ with
    | None, Some p => client p
    | _, _ => client_
    end in
  w <- get ;;
  let u :=
    match client_ with
    | Some _ =>
        if pyurl_bool url_ then Some (url_join (client_url w) url_)
        else objectify url_
    | None => objectify url_
    end in
  ret (mk id_ u client_ parent_ name_ extra).

(** [DAVObject._query] *)
Definition _query (self : t) (root : option ET.xml) (depth : Z)
    (method : query_method) (url_ : option URL)
    (expected_return_value : option Z) : M World response :=
  let url_ := match url_ with None => url self | Some u => Some u end in
  let body := root in
  _ <- deref (client self) ;;
  r <- client_call env (Query method url_ body depth) ;;
  if (status r =? 404)%Z then raise (NotFoundError (raw r))
  else if (match expected_return_value with
           | Some e => negb (status r =? e)%Z
           | None => false
           end || (400 <=? status r)%Z)
  then raise (exception_by_method method (raw r))
  else ret r.

(** [DAVObject._query_properties] *)
Definition _query_properties (self : t) (props : list ET.xml) (depth : Z)
    : M World response :=
  let root :=
    if (0 <? length props)%nat
    then Some (ET.add (elem Tags.Propfind) [ET.add (elem Tags.Prop_) props])
    else None in
  _query self root depth propfind None None.

(** The value of one property element [t_] ([val] in the source). *)
Definition prop_value (t_ : ET.xml) (type : option string)
    (what : ET.what_attr) : option string :=
  if (0 <? length (ET.children t_))%nat then
    let val :=
      match type with
      | Some ty => ET.find t_ ty
      | None => ET.find_any t_
      end in
    match val with
    | Some v => ET.getattr v what
    | None => None
    end
  else ET.text t_.

Definition propdict : Type := @Dict.t string (option string).
Definition propmap : Type := @Dict.t (option string) propdict.

(** The inner loop [for p in props] filling [properties[href]]. *)
Fixpoint handle_props (r : ET.xml) (props : list ET.xml)
    (type : option string) (what : ET.what_attr) (d : propdict)
    : result propdict :=
  match props with
  | [] => Ok d
  | p :: ps =>
      match ET.find r (ET.tag p) with
      | None => Raise TypeError            (* list(None) *)
      | Some t_ =>
          handle_props r ps type what
            (Dict.set String.eqb (ET.tag p) (prop_value t_ type what) d)
      end
  end.

(** The outer loop [for r in response.tree.findall(...)]. *)
Fixpoint handle_responses (raw_ : string) (rs : list ET.xml)
    (props : list ET.xml) (type : option string) (what : ET.what_attr)
    (properties : propmap) : result propmap :=
  match rs with
  | [] => Ok properties
  | r :: rs' =>
      match ET.find r Tags.Status with
      | None => Raise AttributeError       (* None.text *)
      | Some st =>
          match ET.text st with
          | None => Raise AttributeError   (* None.endswith *)
          | Some line =>
              if negb (PyStr.endswith line "200 OK") then
                if PyStr.endswith line "404 Not Found"
                then handle_responses raw_ rs' props type what properties
                else Raise (ReportError raw_)
              else
                match ET.find r Tags.Href with
                | None => Raise AttributeError
                | Some h =>
                    let href := ET.text h in
                    match handle_props r props type what Dict.empty with
                    | Raise e => Raise e
                    | Ok d =>
                        handle_responses raw_ rs' props type what
                          (Dict.set okey_eqb href d properties)
                    end
                end
          end
      end
  end.

(** [DAVObject._handle_prop_response] *)
Definition _handle_prop_response (resp : response) (props : list ET.xml)
    (type : option string) (what : ET.what_attr) : result propmap :=
  match tree resp with
  | None => Raise AttributeError
  | Some root =>
      handle_responses (raw resp) (ET.findall root Tags.Response)
        props type what Dict.empty
  end.

(** [DAVObject.get_properties] *)
Definition get_properties (self : t) (props : list ET.xml) (depth : Z)
    : M World propdict :=
  resp <- _query_properties self props depth ;;
  properties <- lift (_handle_prop_response resp props None ET.what_text) ;;
  u <- deref (url self) ;;
  let path := url_path u in
  let exchange_path := (url_path u ++ "/")%string in
  if Dict.mem okey_eqb (Some path) properties then
    deref (Dict.get okey_eqb (Some path) properties)
  else if Dict.mem okey_eqb (Some exchange_path) properties then
    deref (Dict.get okey_eqb (Some exchange_path) properties)
  else
    raise (Exception ("The CalDAV server you are using has " ++
                      "a problem with path handling.")).

(** The loop of [set_properties] over the status lines. *)
Fixpoint check_statuses (raw_ : string) (statuses : list ET.xml)
    : result unit :=
  match statuses with
  | [] => Ok tt
  | s :: rest =>
      match ET.text s with
      | None => Raise AttributeError
      | Some line =>
          if negb (PyStr.endswith line "200 OK")
          then Raise (PropsetError raw_)
          else check_statuses raw_ rest
      end
  end.

(** [DAVObject.set_properties] *)
Definition set_properties (self : t) (props : list ET.xml) : M World t :=
  let prop := ET.add (elem Tags.Prop_) props in
  let set := ET.add (elem Tags.Set_) [prop] in
  let root := ET.add (elem Tags.PropertyUpdate) [set] in
  r <- _query self (Some root) 0 proppatch None None ;;
  root_ <- deref (tree r) ;;
  lift (check_statuses (raw r) (ET.findall root_ Tags.Status)) ;;;
  ret self.

(** [DAVObject.delete] *)
Definition delete (self : t) : M World unit :=
  match url self with
  | Some u =>
      _ <- deref (client self) ;;
      r <- client_call env (Delete u) ;;
      if negb ((status r =? 200)%Z || (status r =? 204)%Z || (status r =? 404)%Z)
      then raise (DeleteError (raw r))
      else ret tt
  | None => ret tt
  end.

(** The loop of [children] over the paths of the property map. *)
Fixpoint children_loop (self : t) (type : option string)
    (properties : propmap) (paths : list (option string))
    (c : list (URL * option string)) : result (list (URL * option string)) :=
  match paths with
  | [] => Ok c
  | path :: rest =>
      match Dict.get okey_eqb path properties with
      | None => Raise KeyError
      | Some pv =>
          match Dict.get String.eqb Tags.ResourceType pv with
          | None => Raise KeyError
          | Some resource_type =>
              if okey_eqb resource_type type ||
                 match type with None => true | Some _ => false end
              then
                match url self with
                | None => Raise AttributeError
                | Some u =>
                    let child := url_join u (pyurl_of_ostr path) in
                    if negb (url_eq (url_strip_trailing_slash u)
                                    (url_strip_trailing_slash child))
                    then children_loop self type properties rest
                           (c ++ [(child, resource_type)])
                    else children_loop self type properties rest c
                end
              else children_loop self type properties rest c
          end
      end
  end.

(** [DAVObject.children] *)
Definition children (self : t) (type : option string)
    : M World (list (URL * option string)) :=
  let props := [elem Tags.ResourceType] in
  resp <- _query_properties self props 1 ;;
  properties <- lift (_handle_prop_response resp props type ET.what_tag) ;;
  lift (children_loop self type properties (Dict.keys properties) []).

End Methods.
End DAVObject.

(* ------------------------------------------------------------------ *)
(** ** class CalendarSet(DAVObject) *)

Module CalendarSet.
Section Methods.
Context `{U : UrlLib}.

Definition t : Type := DAVObject.t.

(** [CalendarSet(client, url)] *)
Definition init (client_ : option client_ref) (url_ : pyurl URL) : M World t :=
  DAVObject.init client_ url_ None None None None.
End Methods.
End CalendarSet.

(* ------------------------------------------------------------------ *)
(** ** class Principal(DAVObject) *)

Module Principal.
Section Methods.
Context `{U : UrlLib}.
Variable env : Env.

Record t : Type := mk {
  base : DAVObject.t;
  _calendar_home_set : option CalendarSet.t
}.

Definition set_chs (c : option CalendarSet.t) (p : t) : t :=
  mk (base p) c.

(** What is assigned to the property: a CalendarSet or something to be
    turned into a URL. *)
Inductive home_set_value : Type :=
| AsCalendarSet (c : CalendarSet.t)
| AsUrl (u : pyurl URL).

(** The setter of [Principal.calendar_home_set]. *)
Definition calendar_home_set_setter (v : home_set_value) : M (t * World) unit :=
  match v with
  | AsCalendarSet c => modify_self (set_chs (Some c))
  | AsUrl url_ =>
      sanitized_url <- deref (objectify url_) ;;
      self <- get_self ;;
      w <- get_world ;;
      (if PyStr.otruthy (url_hostname sanitized_url) then
         _ <- deref (DAVObject.client (base self)) ;;
         if negb (okey_eqb (url_hostname sanitized_url)
                           (url_hostname (client_url w)))
         then modify_world (set_client_url sanitized_url)
         else ret tt
       else ret tt) ;;;
      _ <- deref (DAVObject.client (base self)) ;;
      w <- get_world ;;
      c <- in_world (CalendarSet.init (DAVObject.client (base self))
                       (UObj (url_join (client_url w) (UObj sanitized_url)))) ;;
      modify_self (set_chs (Some c))
  end.

(** The getter of [Principal.calendar_home_set]. *)
Definition calendar_home_set : M (t * World) CalendarSet.t :=
  self <- get_self ;;
  match _calendar_home_set self with
  | Some c => ret c
  | None =>
      chs <- in_world (DAVObject.get_properties env (base self)
                         [elem Tags.CalendarHomeSet] 0) ;;
      v <- subscript (Dict.get String.eqb
                        "{urn:ietf:params:xml:ns:caldav}calendar-home-set" chs) ;;
      calendar_home_set_setter (AsUrl (pyurl_of_ostr v)) ;;;
      self <- get_self ;;
      deref (_calendar_home_set self)
  end.
End Methods.
End Principal.

(* ------------------------------------------------------------------ *)
(** ** class CalendarObjectResource(DAVObject), with Event and Todo *)

Module CalendarObjectResource.
Section Methods.
Context `{U : UrlLib} `{V : VObjectLib}.
Variable env : Env.

(** A DAV object with the two representations of its content. *)
Record t : Type := mk {
  base : DAVObject.t;
  _instance : option vinstance;
  _data : option string
}.

Definition set_base (b : DAVObject.t) (o : t) : t := mk b (_instance o) (_data o).
Definition set__instance (i : option vinstance) (o : t) : t := mk (base o) i (_data o).
Definition set__data (d : option string) (o : t) : t := mk (base o) (_instance o) d.

(** [set_data], the setter of the property [data]. *)
Definition set_data (data : string) : M (t * World) unit :=
  modify_self (set__data (Some (vcal_fix data))) ;;;
  self <- get_self ;;
  d <- deref (_data self) ;;
  match readOne (to_unicode d) with
  | None => raise ParseError
  | Some inst => modify_self (set__instance (Some inst))
  end.

(** [get_data] *)
Definition get_data (self : t) : option string := _data self.


(** [get_instance] *)
Definition get_instance (self : t) : option vinstance := _instance self.

(** [CalendarObjectResource.__init__] *)
Definition init (client_ : option client_ref) (url_ : pyurl URL)
    (data : option string) (parent_ : option DAVObject.t)
    (id_ : option string) : M World t :=
  b <- DAVObject.init client_ url_ parent_ None id_ None ;;
  construct (mk b None None)
    (match data with
     | Some d => set_data d
     | None => ret tt
     end).

(** The loop of [_create] over the component names: the uid of the first
    component the instance has. *)
Fixpoint uid_of_instance (inst : option vinstance) (names : list string)
    : result (option string) :=
  match names with
  | [] => Ok None
  | obj :: rest =>
      match match inst with Some i => component i obj | None => None end with
      | Some c =>
          match uid_value c with
          | Some v => Ok (Some v)
          | None => Raise AttributeError
          end
      | None => uid_of_instance inst rest
      end
  end.

Definition content_type : list (string * string) :=
  [("Content-Type",
    "text/calendar; charset=" ++ PyStr.dquote ++ "utf-8" ++ PyStr.dquote)%string].

(** [[x[1] for x in headers if x[0]=='location'][0]] *)
Definition location (hdrs : list (string * string)) : option string :=
  hd_error (map snd (filter (fun x => String.eqb (fst x) "location") hdrs)).

(** The first statement of [_create]: the id, when none was given, comes
    from the path if there is one that ends in [.ics], else from the
    instance. *)
Definition derive_id (self : t) (id_ : option string) (path : option string)
    : result (option string) :=
  match id_, path with
  | None, Some p =>
      if PyStr.endswith p ".ics" then
        match Re.search_ics_group2 p with
        | Some g => Ok (Some g)
        | None => Raise AttributeError       (* None.group *)
        end
      else uid_of_instance (get_instance self)
             ["vevent"; "vtodo"; "vjournal"; "vfreebusy"]
  | None, None =>
      uid_of_instance (get_instance self)
        ["vevent"; "vtodo"; "vjournal"; "vfreebusy"]
  | Some i, _ => Ok (Some i)
  end.

(** The second statement of [_create]: [path = id + ".ics"] when no path
    was given. *)
Definition derive_path (id_ : option string) (path : option string)
    : result string :=
  match path with
  | Some p => Ok p
  | None =>
      match id_ with
      | Some i => Ok (i ++ ".ics")%string
      | None => Raise TypeError              (* None + ".ics" *)
      end
  end.

(** What the answer to the PUT makes of the target: the new value of
    [path]. *)
Definition put_result (target : URL) (r : response) : result (pyurl URL) :=
  if (status r =? 302)%Z then
    match location (headers r) with
    | Some l => Ok (UStr l)
    | None => Raise IndexError
    end
  else if negb ((status r =? 204)%Z || (status r =? 201)%Z)
  then Raise (PutError (raw r))
  else Ok (UObj target).

(** [CalendarObjectResource._create] *)
Definition _create (data : string) (id_ : option string)
    (path : option string) : M (t * World) unit :=
  self <- get_self ;;
  id_ <- lift (derive_id self id_ path) ;;
  path <- lift (derive_path id_ path) ;;
  p <- deref (DAVObject.parent (base self)) ;;
  pu <- deref (DAVObject.url p) ;;
  let target := url_join pu (UStr path) in
  _ <- deref (DAVObject.client (base self)) ;;
  r <- in_world (client_call env (Put target data content_type)) ;;
  new_path <- lift (put_result target r) ;;
  modify_self (fun o => set_base (DAVObject.set_url (objectify new_path) (base o)) o) ;;;
  modify_self (fun o => set_base (DAVObject.set_id id_ (base o)) o).

(** [CalendarObjectResource.save] *)
Definition save : M (t * World) t :=
  self <- get_self ;;
  match _instance self with
  | Some inst =>
      let path :=
        match DAVObject.url (base self) with
        | Some u => if url_bool u then Some (url_path u) else None
        | None => None
        end in
      _create (serialize inst) (DAVObject.id (base self)) path
  | None => ret tt
  end ;;;
  get_self.

End Methods.
End CalendarObjectResource.

(* ------------------------------------------------------------------ *)
(** ** class Calendar(DAVObject) *)

Module Calendar.
Section Methods.
Context `{U : UrlLib} `{V : VObjectLib}.
Variable env : Env.

Definition t : Type := DAVObject.t.

(** The MKCALENDAR body built by [_create]. *)
Definition mkcalendar_body (name_ : option string)
    (supported_calendar_component_set : option (list string)) : ET.xml :=
  let cal := elem Tags.Calendar in
  let coll := ET.add (elem Tags.Collection) [cal] in
  let type := ET.add (elem Tags.ResourceType) [coll] in
  let prop := ET.add (elem Tags.Prop_) [type] in
  let prop :=
    match name_ with
    | Some n => if PyStr.truthy n
                then ET.add prop [valued Tags.DisplayName n] else prop
    | None => prop
    end in
  let prop :=
    match supported_calendar_component_set with
    | Some (scc :: sccs) =>
        ET.add prop
          [ET.add (elem Tags.SupportedCalendarComponentSet)
             (map (named Tags.Comp) (scc :: sccs))]
    | _ => prop
    end in
  let set := ET.add (elem Tags.Set_) [prop] in
  ET.add (elem Tags.Mkcalendar) [set].

(** [Calendar._create] *)
Definition _create (name_ id_ : option string)
    (supported_calendar_component_set : option (list string))
    : M (t * World) unit :=
  id_ <- match id_ with
         | None => in_world (fresh_uuid env)
         | Some i => ret i
         end ;;
  modify_self (DAVObject.set_id (Some id_)) ;;;
  self <- get_self ;;
  p <- deref (DAVObject.parent self) ;;
  pu <- deref (DAVObject.url p) ;;
  let path := url_join pu (UStr id_) in
  modify_self (DAVObject.set_url (Some path)) ;;;
  self <- get_self ;;
  let mkcol := mkcalendar_body name_ supported_calendar_component_set in
  r <- in_world (DAVObject._query env self (Some mkcol) 0 mkcalendar
                   (Some path) (Some 201%Z)) ;;
  (if PyStr.otruthy name_ then
     let display_name :=
       valued Tags.DisplayName (match name_ with Some n => n | None => "" end) in
     try_except
       (_ <- in_world (DAVObject.set_properties env self [display_name]) ;; ret tt)
       (fun e => in_world (DAVObject.delete env self) ;;; raise e)
   else ret tt) ;;;
  let zimbra_url := url_join pu (pyurl_of_ostr name_) in
  try_except
    (_ <- deref (DAVObject.client self) ;;
     r <- in_world (client_call env (Get zimbra_url)) ;;
     if (status r =? 404)%Z then raise (NotFoundError "")
     else modify_self (DAVObject.set_url (Some zimbra_url)))
    (fun e => match e with
              | NotFoundError _ => ret tt
              | _ => raise e
              end).

(** [Calendar.save] *)
Definition save : M (t * World) t :=
  self <- get_self ;;
  match DAVObject.url self with
  | None =>
      _create (DAVObject.name self) (DAVObject.id self)
              (DAVObject.extra_init_options self) ;;;
      self <- get_self ;;
      u <- deref (DAVObject.url self) ;;
      if negb (url_endswith u "/")
      then modify_self (DAVObject.set_url
                          (objectify (UStr (url_str u ++ "/")%string)))
      else ret tt
  | Some _ => ret tt
  end ;;;
  get_self.

(** The calendar-query of [event_by_uid]. *)
Definition uid_query (uid : string) : ET.xml :=
  let data := elem Tags.CalendarData in
  let prop := ET.add (elem Tags.Prop_) [data] in
  let match_ := valued Tags.TextMatch uid in
  let propf := ET.add (named Tags.PropFilter "UID") [match_] in
  let vevent := ET.add (named Tags.CompFilter "VEVENT") [propf] in
  let vcalendar := ET.add (named Tags.CompFilter "VCALENDAR") [vevent] in
  let filter := ET.add (elem Tags.Filter) [vcalendar] in
  ET.add (elem Tags.CalendarQuery) [prop; filter].

(** [Calendar.event_by_uid] *)
Definition event_by_uid (self : t) (uid : string)
    : M World CalendarObjectResource.t :=
  let root := uid_query uid in
  resp <- DAVObject._query env self (Some root) 1 report None None ;;
  if (status resp =? 404)%Z then raise (NotFoundError (raw resp))
  else if (status resp =? 400)%Z then raise (ReportError (raw resp))
  else
    tr <- deref (tree resp) ;;
    match ET.find tr Tags.Response with
    | Some r =>
        h <- deref (ET.find r Tags.Href) ;;
        let href := ET.text h in
        cd <- deref (ET.find r Tags.CalendarData) ;;
        let data := ET.text cd in
        CalendarObjectResource.init (DAVObject.client self)
          (match objectify (pyurl_of_ostr href) with
           | Some u => UObj u
           | None => UNone
           end)
          data (Some self) None
    | None => raise (NotFoundError (raw resp))
    end.

End Methods.
End Calendar.

(* ------------------------------------------------------------------ *)
(** ** Methods that build objects of classes defined further down

    [CalendarSet], [Principal] and [Calendar] have methods that construct
    calendars and events; they are gathered here, after the classes they
    construct. *)

(** A method call [obj.m(...)] on an object that is not kept afterwards
    (the receiver is a temporary). *)
Definition call_on {Self W A : Type} (self0 : Self) (m : M (Self * W) A) : M W A :=
  fun w => let (r, s) := m (self0, w) in (r, snd s).

(** [URL.objectify(x)] passed on as an argument. *)
Definition objectified `{UrlLib} (x : pyurl URL) : pyurl URL :=
  match objectify x with
  | Some u => UObj u
  | None => UNone
  end.

Module CalendarSetMethods.
Section Methods.
Context `{U : UrlLib}.
Variable env : Env.

(** The loop of [calendars]: a Calendar for each child. *)
Fixpoint build_calendars (self : CalendarSet.t)
    (data : list (URL * option string)) (cals : list Calendar.t)
    : M World (list Calendar.t) :=
  match data with
  | [] => ret cals
  | (c_url, c_type) :: rest =>
      c <- DAVObject.init (DAVObject.client self) (UObj c_url) (Some self)
             None None None ;;
      build_calendars self rest (cals ++ [c])
  end.

(** [CalendarSet.calendars] *)
Definition calendars (self : CalendarSet.t) : M World (list Calendar.t) :=
  data <- DAVObject.children env self (Some Tags.Calendar) ;;
  build_calendars self data [].

(** [CalendarSet.make_calendar] *)
Definition make_calendar (self : CalendarSet.t) (name_ cal_id : option string)
    (supported_calendar_component_set : option (list string))
    : M World Calendar.t :=
  c <- DAVObject.init (DAVObject.client self) UNone (Some self) name_ cal_id
         supported_calendar_component_set ;;
  call_on c (Calendar.save env).

(** [CalendarSet.calendar] *)
Definition calendar (self : CalendarSet.t) (name_ cal_id : option string)
    : M World Calendar.t :=
  u <- deref (DAVObject.url self) ;;
  DAVObject.init (DAVObject.client self)
    (UObj (url_join u (pyurl_of_ostr cal_id))) (Some self) name_ cal_id None.
End Methods.
End CalendarSetMethods.

Module PrincipalMethods.
Section Methods.
Context `{U : UrlLib}.
Variable env : Env.

(** [Principal.__init__]: the other attributes keep the class defaults. *)
Definition init (client_ : option client_ref) (url_ : pyurl URL)
    : M World Principal.t :=
  match url_ with
  | UNone =>
      _ <- deref client_ ;;
      w <- get ;;
      let self0 := DAVObject.mk None (Some (client_url w)) client_ None None None in
      cup <- DAVObject.get_properties env self0
               [elem Tags.CurrentUserPrincipal] 0 ;;
      v <- subscript (Dict.get String.eqb "{DAV:}current-user-principal" cup) ;;
      w' <- get ;;
      ret (Principal.mk
             (DAVObject.mk None
                (Some (url_join (client_url w') (objectified (pyurl_of_ostr v))))
                client_ None None None)
             None)
  | _ =>
      _ <- deref client_ ;;
      w <- get ;;
      ret (Principal.mk
             (DAVObject.mk None
                (Some (url_join (client_url w) (objectified url_)))
                client_ None None None)
             None)
  end.

(** [Principal.make_calendar] *)
Definition make_calendar (name_ cal_id : option string)
    (supported_calendar_component_set : option (list string))
    : M (Principal.t * World) Calendar.t :=
  cs <- Principal.calendar_home_set env ;;
  in_world (CalendarSetMethods.make_calendar env cs name_ cal_id
              supported_calendar_component_set).

(** [Principal.calendar] *)
Definition calendar (name_ cal_id : option string)
    : M (Principal.t * World) Calendar.t :=
  cs <- Principal.calendar_home_set env ;;
  in_world (CalendarSetMethods.calendar cs name_ cal_id).

(** [Principal.calendars] *)
Definition calendars : M (Principal.t * World) (list Calendar.t) :=
  cs <- Principal.calendar_home_set env ;;
  in_world (CalendarSetMethods.calendars env cs).
End Methods.
End PrincipalMethods.

Module CalendarMethods.
Section Methods.
Context `{U : UrlLib} `{V : VObjectLib}.
Variable env : Env.

(** [Calendar.add_event]; an Event is a CalendarObjectResource. *)
Definition add_event (self : Calendar.t) (ical : string)
    : M World CalendarObjectResource.t :=
  e <- CalendarObjectResource.init (DAVObject.client self) UNone (Some ical)
         (Some self) None ;;
  call_on e (CalendarObjectResource.save env).

(** [Calendar.add_todo]; a Todo is a CalendarObjectResource. *)
Definition add_todo (self : Calendar.t) (ical : string)
    : M World CalendarObjectResource.t :=
  e <- CalendarObjectResource.init (DAVObject.client self) UNone (Some ical)
         (Some self) None ;;
  call_on e (CalendarObjectResource.save env).

(** The loop of [date_search] and of [todos] over the parsed results. *)
Fixpoint build_matches (self : Calendar.t) (results : DAVObject.propmap)
    (paths : list (option string)) (matches : list CalendarObjectResource.t)
    : M World (list CalendarObjectResource.t) :=
  match paths with
  | [] => ret matches
  | r :: rest =>
      u <- deref (DAVObject.url self) ;;
      pv <- subscript (Dict.get okey_eqb r results) ;;
      data <- subscript (Dict.get String.eqb Tags.CalendarData pv) ;;
      e <- CalendarObjectResource.init (DAVObject.client self)
             (UObj (url_join u (pyurl_of_ostr r))) data (Some self) None ;;
      build_matches self results rest (matches ++ [e])
  end.

(** Modelled from the spec: [caldav.elements] is not among the sources.  An
    element that carries a time range has its bounds as the attributes
    [start] and [end]; a bound is the text the element prints for the
    datetime it was given. *)
Definition ranged (t : string) (start : string) (end_ : option string) : ET.xml :=
  ET.Element t
    (("start", start) :: match end_ with Some e => [("end", e)] | None => [] end)
    None [].

(** The calendar-query of [date_search]. *)
Definition date_query (start : string) (end_ : option string) : ET.xml :=
  let expand := ranged (Tags.C "expand") start end_ in
  let data := ET.add (elem Tags.CalendarData) [expand] in
  let prop := ET.add (elem Tags.Prop_) [data] in
  let range := ranged (Tags.C "time-range") start end_ in
  let vevent := ET.add (named Tags.CompFilter "VEVENT") [range] in
  let vcalendar := ET.add (named Tags.CompFilter "VCALENDAR") [vevent] in
  let filter := ET.add (elem Tags.Filter) [vcalendar] in
  ET.add (elem Tags.CalendarQuery) [prop; filter].

(** [Calendar.date_search]: the REPORT goes to the client directly, not
    through [_query]. *)
Definition date_search (self : Calendar.t) (start : string)
    (end_ : option string) : M World (list CalendarObjectResource.t) :=
  let root := date_query start end_ in
  _ <- deref (DAVObject.client self) ;;
  resp <- client_call env (Query report (DAVObject.url self) (Some root) 1) ;;
  results <- lift (DAVObject._handle_prop_response resp
                     [elem Tags.CalendarData] None ET.what_text) ;;
  build_matches self results (Dict.keys results) [].

(** Modelled from the spec: [caldav.elements] is not among the sources.  A
    negated text-match and the is-not-defined marker of a prop-filter. *)
Definition not_matching (v : string) : ET.xml :=
  ET.Element Tags.TextMatch [("negate-condition", "yes")] (Some v) [].

(** The calendar-query of [todos]. *)
Definition todo_query : ET.xml :=
  let data := elem Tags.CalendarData in
  let prop := ET.add (elem Tags.Prop_) [data] in
  let vnotcompleted := not_matching "COMPLETED" in
  let vnotcancelled := not_matching "CANCELLED" in
  let vstatus := ET.add (named Tags.PropFilter "STATUS")
                   [vnotcancelled; vnotcompleted] in
  let vnocompletedate := ET.add (named Tags.PropFilter "COMPLETED")
                           [elem (Tags.C "is-not-defined")] in
  let vtodo := ET.add (named Tags.CompFilter "VTODO") [vnocompletedate; vstatus] in
  let vcalendar := ET.add (named Tags.CompFilter "VCALENDAR") [vtodo] in
  let filter := ET.add (elem Tags.Filter) [vcalendar] in
  ET.add (elem Tags.CalendarQuery) [prop; filter].

(** [Calendar.todos]; [sort_key] is not used by the source. *)
Definition todos (self : Calendar.t) (sort_key : string)
    : M World (list CalendarObjectResource.t) :=
  _ <- deref (DAVObject.client self) ;;
  resp <- client_call env (Query report (DAVObject.url self) (Some todo_query) 1) ;;
  results <- lift (DAVObject._handle_prop_response resp
                     [elem Tags.CalendarData] None ET.what_text) ;;
  build_matches self results (Dict.keys results) [].

(** The loop of [events]: an Event for each child. *)
Fixpoint build_events (self : Calendar.t) (data : list (URL * option string))
    (all : list CalendarObjectResource.t)
    : M World (list CalendarObjectResource.t) :=
  match data with
  | [] => ret all
  | (e_url, e_type) :: rest =>
      e <- CalendarObjectResource.init (DAVObject.client self) (UObj e_url)
             None (Some self) None ;;
      build_events self rest (all ++ [e])
  end.

(** [Calendar.events] *)
Definition events (self : Calendar.t) : M World (list CalendarObjectResource.t) :=
  data <- DAVObject.children env self None ;;
  build_events self data [].
End Methods.
End CalendarMethods.

(* ------------------------------------------------------------------ *)
(** ** Concrete collaborators, used to run the model on examples *)

(** Modelled from the spec: [caldav.lib.url] is not among the sources.  A
    small URL type in the spirit of section 4.1: a URL is its text; an
    absolute URL is [scheme://host/path]; [join] resolves an absolute
    reference to itself, a reference starting with a slash against the
    base's scheme and host, and any other reference against the base's
    path. *)
Module SimpleUrl.

(** Splits [s] at the first occurrence of the separator [sep]. *)
Definition split_at (sep s : string) : option (string * string) :=
  match String.index 0 sep s with
  | Some n =>
      Some (substring 0 n s,
            substring (n + String.length sep)
                      (String.length s - (n + String.length sep)) s)
  | None => None
  end.

(** scheme, host and path of an absolute URL. *)
Definition parts (s : string) : option (string * string * string) :=
  match split_at "://" s with
  | Some (scheme, rest) =>
      match split_at "/" rest with
      | Some (host, p) => Some (scheme, host, ("/" ++ p)%string)
      | None => Some (scheme, rest, "")
      end
  | None => None
  end.

Definition hostname (s : string) : option string :=
  match parts s with Some (_, h, _) => Some h | None => None end.

Definition path (s : string) : string :=
  match parts s with Some (_, _, p) => p | None => s end.

Definition origin (s : string) : string :=
  match parts s with
  | Some (sch, h, _) => (sch ++ "://" ++ h)%string
  | None => ""
  end.

Definition strip_trailing_slash (s : string) : string :=
  if PyStr.endswith s "/" then substring 0 (String.length s - 1) s else s.

Definition join (base : string) (p : pyurl string) : string :=
  match p with
  | UNone => base
  | UStr r | UObj r =>
      match r with
      | EmptyString => base
      | _ =>
          match parts r with
          | Some _ => r
          | None =>
              if String.prefix "/" r then (origin base ++ r)%string
              else if PyStr.endswith (path base) "/"
                   then (origin base ++ path base ++ r)%string
                   else (origin base ++ path base ++ "/" ++ r)%string
          end
      end
  end.

#[local] Instance lib : UrlLib := {|
  URL := string;
  url_of_str := fun s => s;
  url_str := fun u => u;
  url_bool := PyStr.truthy;
  url_path := path;
  url_hostname := hostname;
  url_join := join;
  url_strip_trailing_slash := strip_trailing_slash;
  url_eq := String.eqb;
  url_endswith := PyStr.endswith
|}.

End SimpleUrl.

(** A small iCalendar codec, standing for vobject on examples: a text
    [name:uid] is one component [name] with that uid. *)
Module SimpleCal.

Fixpoint split_colon (s : string) : option (string * string) :=
  match s with
  | EmptyString => None
  | String c r =>
      if Ascii.eqb c ":" then Some (EmptyString, r)
      else match split_colon r with
           | Some (a, b) => Some (String c a, b)
           | None => None
           end
  end.

#[local] Instance lib : VObjectLib := {|
  vinstance := string * string;
  vcomponent := string;
  readOne := split_colon;
  serialize := fun i => (fst i ++ ":" ++ snd i)%string;
  component := fun i n => if String.eqb (fst i) n then Some (snd i) else None;
  uid_value := fun c => Some c;
  vcal_fix := fun s => s;
  to_unicode := fun s => s
|}.

End SimpleCal.

(** ** Example sessions *)

Module Fixture.
#[local] Existing Instance SimpleUrl.lib.
#[local] Existing Instance SimpleCal.lib.

(** A server that answers by looking at the request alone. *)
Definition answering (f : request -> response) : Env := {|
  server := fun lg =>
    match rev lg with
    | r :: _ => f r
    | [] => {| status := 500; headers := []; raw := ""; tree := None |}
    end;
  uuid1 := fun n => ("uuid-" ++ String (ascii_of_nat (48 + n)) "")%string
|}.

Definition plain (st : Z) : response :=
  {| status := st; headers := []; raw := ""; tree := None |}.

Definition multistatus_root (entries : list ET.xml) : ET.xml :=
  ET.Element (Tags.D "multistatus") [] None entries.

Definition multistatus (body : string) (entries : list ET.xml) : response :=
  {| status := 207; headers := []; raw := body;
     tree := Some (multistatus_root entries) |}.

(** A response entry with one propstat. *)
Definition entry (href : string) (props : list ET.xml) (line : string) : ET.xml :=
  ET.Element Tags.Response [] None
    [ET.Element Tags.Href [] (Some href) [];
     ET.Element (Tags.D "propstat") [] None
       [ET.Element Tags.Prop_ [] None props;
        ET.Element Tags.Status [] (Some line) []]].

Definition w0 : World :=
  {| client_url := "http://cal.example.com/"; log := []; uuids := 0 |}.

Definition home : DAVObject.t :=
  DAVObject.mk None (Some "http://cal.example.com/home/") (Some the_client)
               None None None.

(** An event object that has been given no content. *)
Definition blank_event : CalendarObjectResource.t :=
  CalendarObjectResource.mk
    (DAVObject.mk None None (Some the_client) (Some home) None None) None None.

(** An unbound calendar named Work under [home]. *)
Definition new_calendar : Calendar.t :=
  DAVObject.mk (Some "c1") None (Some the_client) (Some home) (Some "Work") None.

(** A server on which every request succeeds and nothing exists at the
    name-based URL. *)
Definition friendly : Env :=
  answering (fun r =>
    match r with
    | Query mkcalendar _ _ _ => plain 201
    | Query _ _ _ _ =>
        multistatus "ok"
          [entry "/home/" [valued Tags.DisplayName "Home"] "HTTP/1.1 200 OK"]
    | Put _ _ _ => plain 201
    | Delete _ => plain 204
    | Get _ => plain 404
    end).

(** A depth-1 listing of [home]: the collection itself, a calendar, and an
    entry the server reports as not found. *)
Definition work_entry : ET.xml :=
  entry "/home/work/"
    [ET.Element Tags.ResourceType [] None
       [elem Tags.Collection; elem Tags.Calendar]]
    "HTTP/1.1 200 OK".

Definition listing_entries : list ET.xml :=
  [entry "/home/"
     [ET.Element Tags.ResourceType [] None [elem Tags.Collection]]
     "HTTP/1.1 200 OK";
   entry "/home/gone/" [elem Tags.ResourceType] "HTTP/1.1 404 Not Found";
   work_entry].

Definition listing : response := multistatus "listing" listing_entries.

(** A server that answers every query with [listing]. *)
Definition lister : Env :=
  answering (fun r =>
    match r with
    | Query _ _ _ _ => listing
    | _ => plain 404
    end).

(** A bound calendar. *)
Definition work : Calendar.t :=
  DAVObject.mk (Some "work") (Some "http://cal.example.com/home/work/")
               (Some the_client) (Some home) (Some "Work") None.

(** A server whose REPORT finds one event. *)
Definition finder : Env :=
  answering (fun r =>
    match r with
    | Query report _ _ _ =>
        multistatus "found"
          [entry "/home/work/abc123.ics"
             [valued Tags.CalendarData "vevent:abc123"] "HTTP/1.1 200 OK"]
    | _ => plain 404
    end).

(** A calendar named topics and an event bound inside it, loaded but
    without an id of its own (as [Calendar.events] builds them). *)
Definition topics : Calendar.t :=
  DAVObject.mk (Some "topics") (Some "http://cal.example.com/topics/")
               (Some the_client) None (Some "Topics") None.

Definition topics_event : CalendarObjectResource.t :=
  CalendarObjectResource.mk
    (DAVObject.mk None (Some "http://cal.example.com/topics/e1.ics")
                  (Some the_client) (Some topics) None None)
    (Some ("vevent", "abc123")) (Some "vevent:abc123").

(** A principal whose calendar-home-set lives on another host. *)
Definition principal : Principal.t :=
  Principal.mk
    (DAVObject.mk None (Some "http://cal.example.com/principals/u1/")
                  (Some the_client) None None None)
    None.

Definition sharded : Env :=
  answering (fun r =>
    match r with
    | Query propfind _ _ _ =>
        multistatus "home-set"
          [entry "/principals/u1/"
             [ET.Element Tags.CalendarHomeSet [] None
                [valued Tags.Href "http://p01.example.com/123/calendars/"]]
             "HTTP/1.1 200 OK"]
    | _ => plain 404
    end).

(** A server that creates the collection, refuses the display name and
    then refuses the delete as well. *)
Definition stubborn : Env :=
  answering (fun r =>
    match r with
    | Query mkcalendar _ _ _ => plain 201
    | Query proppatch _ _ _ =>
        {| status := 207; headers := []; raw := "denied";
           tree := Some (multistatus_root
                           [entry "/home/c1" [elem Tags.DisplayName]
                              "HTTP/1.1 403 Forbidden"]) |}
    | Delete _ => {| status := 500; headers := []; raw := "busy"; tree := None |}
    | _ => plain 404
    end).

(** The same server, but one that carries the delete out. *)
Definition refusing : Env :=
  answering (fun r =>
    match r with
    | Query mkcalendar _ _ _ => plain 201
    | Query proppatch _ _ _ =>
        {| status := 207; headers := []; raw := "denied";
           tree := Some (multistatus_root
                           [entry "/home/c1" [elem Tags.DisplayName]
                              "HTTP/1.1 403 Forbidden"]) |}
    | Delete _ => plain 204
    | _ => plain 404
    end).

Definition home_entry : ET.xml :=
  entry "/home/"
    [ET.Element Tags.ResourceType [] None [elem Tags.Collection]]
    "HTTP/1.1 200 OK".

Definition gone_entry : ET.xml :=
  entry "/home/gone/" [elem Tags.ResourceType] "HTTP/1.1 404 Not Found".

(** An event whose content has none of the four components. *)
Definition timezone_only : CalendarObjectResource.t :=
  CalendarObjectResource.mk
    (DAVObject.mk None None (Some the_client) (Some work) None None)
    (Some ("vtimezone", "tz1")) (Some "vtimezone:tz1").

(** A server on which MKCALENDAR is not allowed. *)
Definition read_only : Env :=
  answering (fun r =>
    match r with
    | Query mkcalendar _ _ _ =>
        {| status := 403; headers := []; raw := "forbidden"; tree := None |}
    | _ => plain 404
    end).

(** A server that answers every probe, as one that aliases collections by
    name does. *)
Definition aliasing : Env :=
  answering (fun r =>
    match r with
    | Query mkcalendar _ _ _ => plain 201
    | Get _ => plain 200
    | _ => plain 404
    end).

(** An unbound calendar without a display name. *)
Definition unnamed_calendar : Calendar.t :=
  DAVObject.mk (Some "c2") None (Some the_client) (Some home) None None.

(** A server whose REPORT answers 404 but with a body that lists one
    object. *)
Definition confused : Env :=
  answering (fun r =>
    match r with
    | Query report _ _ _ =>
        {| status := 404; headers := []; raw := "found";
           tree := Some (multistatus_root
                           [entry "/home/work/abc123.ics"
                              [valued Tags.CalendarData "vtodo:abc123"]
                              "HTTP/1.1 200 OK"]) |}
    | Put _ _ _ => plain 204
    | _ => plain 404
    end).

(** A server that knows the principal of the session. *)
Definition introducing : Env :=
  answering (fun r =>
    match r with
    | Query propfind _ _ _ =>
        multistatus "principal"
          [entry "/"
             [ET.Element Tags.CurrentUserPrincipal [] None
                [valued Tags.Href "/principals/u1/"]]
             "HTTP/1.1 200 OK"]
    | _ => plain 404
    end).

End Fixture.

(* ------------------------------------------------------------------ *)
(** ** The vocabulary of the properties *)

Unset Implicit Arguments.

Section Vocabulary.
Context `{U : UrlLib} `{V : VObjectLib}.
Variable env : Env.






(** The two facts about the URL class the invariant rests on:
    [u.endswith(s)] looks at the text of [u], and the URL made from a text
    has that text. *)
Definition url_text_laws : Prop :=
  (forall (u : URL) (s : string),
      url_endswith u s = PyStr.endswith (url_str u) s)
  /\ (forall s : string, url_str (url_of_str s) = s).

(** The message of the exception raised on a path mismatch. *)
Definition path_handling_message : string :=
  "The CalDAV server you are using has a problem with path handling.".

(** The status line of a response entry: the text of its first status
    element. *)
Definition status_line (r : ET.xml) : option string :=
  match ET.find r Tags.Status with
  | Some st => ET.text st
  | None => None
  end.

(** The path of a response entry: the text of its first href element. *)
Definition entry_href (r : ET.xml) : option string :=
  match ET.find r Tags.Href with
  | Some h => ET.text h
  | None => None
  end.

Inductive entry_status : Type :=
| status_200          (* the line ends in 200 OK *)
| status_404          (* the line ends in 404 Not Found *)
| status_other        (* any other line *)
| status_missing.     (* no status element, or one without text *)

Definition classify (r : ET.xml) : entry_status :=
  match status_line r with
  | None => status_missing
  | Some line =>
      if PyStr.endswith line "200 OK" then status_200
      else if PyStr.endswith line "404 Not Found" then status_404
      else status_other
  end.

(** A response entry of a multistatus body as the handler expects it: it
    has a status line and, when that line is 200 OK, an href element and an
    element for each requested property. *)
Definition entry_well_formed (props : list ET.xml) (r : ET.xml) : Prop :=
  classify r <> status_missing
  /\ (classify r = status_200 ->
      ET.find r Tags.Href <> None
      /\ forall p, In p props -> ET.find r (ET.tag p) <> None).

(** Every entry the handler stores for the one requested property
    resourcetype holds a value under that tag. *)
Definition has_resourcetype (properties : DAVObject.propmap) : Prop :=
  forall k pv, Dict.get okey_eqb k properties = Some pv ->
               exists rt, Dict.get String.eqb Tags.ResourceType pv = Some rt.

(** The test [resource_type == type or type is None]. *)
Definition type_matches (resource_type type : option string) : bool :=
  okey_eqb resource_type type ||
  match type with None => true | Some _ => false end.

(** The test on the slash-normalized URLs: [child] is the resource itself. *)
Definition same_resource (u child : URL) : bool :=
  url_eq (url_strip_trailing_slash u) (url_strip_trailing_slash child).

(** A listed path that [children] reports as the pair [x]. *)
Definition reported (u : URL) (type : option string)
    (properties : DAVObject.propmap) (path : option string)
    (x : URL * option string) : Prop :=
  exists pv rt,
    Dict.get okey_eqb path properties = Some pv
    /\ Dict.get String.eqb Tags.ResourceType pv = Some rt
    /\ type_matches rt type = true
    /\ same_resource u (url_join u (pyurl_of_ostr path)) = false
    /\ x = (url_join u (pyurl_of_ostr path), rt).

(** The Event built from an href and a calendar-data text that parses to
    [inst], for a calendar [self] of a session whose base URL is [base]. *)
Definition event_of (self : Calendar.t) (base : URL) (href : string)
    (data : string) (inst : vinstance) : CalendarObjectResource.t :=
  CalendarObjectResource.mk
    (DAVObject.mk None
       (if url_bool (url_of_str href)
        then Some (url_join base (UObj (url_of_str href)))
        else Some (url_of_str href))
       (DAVObject.client self) (Some self) None None)
    (Some inst) (Some (vcal_fix data)).

(** The Event built from an href whose calendar-data element is empty. *)
Definition empty_event_of (self : Calendar.t) (base : URL) (href : string)
    : CalendarObjectResource.t :=
  CalendarObjectResource.mk
    (DAVObject.mk None
       (if url_bool (url_of_str href)
        then Some (url_join base (UObj (url_of_str href)))
        else Some (url_of_str href))
       (DAVObject.client self) (Some self) None None)
    None None.

(** The object after a successful [_create]. *)
Definition created (r : CalendarObjectResource.t) (u : option URL)
    (i : option string) : CalendarObjectResource.t :=
  CalendarObjectResource.mk
    (DAVObject.mk i u (DAVObject.client (CalendarObjectResource.base r))
       (DAVObject.parent (CalendarObjectResource.base r))
       (DAVObject.name (CalendarObjectResource.base r))
       (DAVObject.extra_init_options (CalendarObjectResource.base r)))
    (CalendarObjectResource._instance r) (CalendarObjectResource._data r).

(** The tag under which the source reads the answer. *)
Definition home_set_tag : string :=
  "{urn:ietf:params:xml:ns:caldav}calendar-home-set".

(** The test of the setter: the href has a host and it is not the host of
    the session's base URL. *)
Definition other_host (sanitized base : URL) : bool :=
  PyStr.otruthy (url_hostname sanitized)
  && negb (okey_eqb (url_hostname sanitized) (url_hostname base)).

(** The session's base URL after the setter has run. *)
Definition rebased (sanitized base : URL) : URL :=
  if other_host sanitized base then sanitized else base.

(** The CalendarSet the setter builds. *)
Definition home_set_of (cl : client_ref) (sanitized base : URL) : CalendarSet.t :=
  let joined := url_join (rebased sanitized base) (UObj sanitized) in
  DAVObject.mk None
    (if url_bool joined
     then Some (url_join (rebased sanitized base) (UObj joined))
     else Some joined)
    (Some cl) None None None.

(** The reading of C6 that fails: after the resolution the base URL has
    the host of the href and is otherwise as before; here, in its path. *)
Definition only_host_repointed (before after href : URL) : Prop :=
  url_hostname after = url_hostname href
  /\ url_path after = url_path before.

(** The id [_create] uses and the world once it is settled. *)
Definition settled_id (id_ : option string) (w : World) : string * World :=
  match id_ with
  | Some i => (i, w)
  | None =>
      (uuid1 env (uuids w),
       {| client_url := client_url w; log := log w; uuids := S (uuids w) |})
  end.

(** The PROPPATCH body [set_properties] builds for [props]. *)
Definition propertyupdate_of (props : list ET.xml) : ET.xml :=
  ET.add (elem Tags.PropertyUpdate)
    [ET.add (elem Tags.Set_) [ET.add (elem Tags.Prop_) props]].

(** The statuses [delete] accepts. *)
Definition delete_accepted (r : response) : bool :=
  (status r =? 200)%Z || (status r =? 204)%Z || (status r =? 404)%Z.
(** The status that lets [_query] return its response. *)
Definition acceptable (expected : option Z) (r : response) : bool :=
  negb (status r =? 404)%Z
  && negb (match expected with
           | Some e => negb (status r =? e)%Z
           | None => false
           end || (400 <=? status r)%Z).

(** A status element of a PROPPATCH answer that reads success. *)
Definition status_ok (s : ET.xml) : bool :=
  match ET.text s with
  | Some line => PyStr.endswith line "200 OK"
  | None => false
  end.

(** Every entry of a property map has exactly the tags of [props] as its
    keys. *)
Definition holds_requested_tags (props : list ET.xml)
    (properties : DAVObject.propmap) : Prop :=
  forall k pv, Dict.get okey_eqb k properties = Some pv ->
    forall t, Dict.get String.eqb t pv <> None <-> In t (map ET.tag props).

(** The text has a slash in it. *)
Fixpoint has_slash (s : string) : bool :=
  match s with
  | EmptyString => false
  | String c rest => Ascii.eqb c "/" || has_slash rest
  end.

(** The path [save] hands to [_create]: the path of the object's URL when
    it has a true one. *)
Definition save_path (r : CalendarObjectResource.t) : option string :=
  match DAVObject.url (CalendarObjectResource.base r) with
  | Some u => if url_bool u then Some (url_path u) else None
  | None => None
  end.

(** The Event that [add_event] builds from a text before saving it. *)
Definition fresh_event (self : Calendar.t) (ical : string) (inst : vinstance)
    : CalendarObjectResource.t :=
  CalendarObjectResource.mk
    (DAVObject.mk None None (DAVObject.client self) (Some self) None None)
    (Some inst) (Some (vcal_fix ical)).

(** The four component names [_create] looks for. *)
Definition component_names : list string :=
  ["vevent"; "vtodo"; "vjournal"; "vfreebusy"].

(** The exception [_query] raises for a refused answer. *)
Definition query_error (m : query_method) (r : response) : exn :=
  if (status r =? 404)%Z then NotFoundError (raw r)
  else exception_by_method m (raw r).

(** The display name as [_create] hands it to [set_properties]. *)
Definition display_name_of (name_ : option string) : ET.xml :=
  valued Tags.DisplayName (match name_ with Some n => n | None => "" end).

(** The URL [DAVObject.__init__] gives an object built from a URL object
    [given], in a session whose base URL is [base]. *)
Definition constructed_url (client_ : option client_ref) (base given : URL)
    : option URL :=
  match client_ with
  | Some _ => if url_bool given then Some (url_join base (UObj given))
              else Some given
  | None => Some given
  end.

(** The object [calendars] and [events] build for the child at [c_url]. *)
Definition child_object (self : DAVObject.t) (base c_url : URL) : DAVObject.t :=
  DAVObject.mk None (constructed_url (DAVObject.client self) base c_url)
    (DAVObject.client self) (Some self) None None.

(** The Event [events] builds for the child at [e_url]: it has no content. *)
Definition child_event (self : DAVObject.t) (base e_url : URL)
    : CalendarObjectResource.t :=
  CalendarObjectResource.mk (child_object self base e_url) None None.

(** What [date_search] and [todos] build for the path [r] of the parsed
    [results]: an object under the calendar, at the path joined to the
    calendar's URL [u], holding the calendar-data of the entry. *)
Definition found_in (self : Calendar.t) (base u : URL)
    (results : DAVObject.propmap) (r : option string)
    (e : CalendarObjectResource.t) : Prop :=
  exists pv data,
    Dict.get okey_eqb r results = Some pv
    /\ Dict.get String.eqb Tags.CalendarData pv = Some data
    /\ CalendarObjectResource.base e
       = child_object self base (url_join u (pyurl_of_ostr r))
    /\ CalendarObjectResource._data e = option_map vcal_fix data
    /\ CalendarObjectResource._instance e
       = match data with
         | Some d => readOne (to_unicode (vcal_fix d))
         | None => None
         end.

(** Every calendar-data text of the parsed [results] parses. *)
Definition all_data_parse (results : DAVObject.propmap) : Prop :=
  forall r pv d,
    Dict.get okey_eqb r results = Some pv ->
    Dict.get String.eqb Tags.CalendarData pv = Some (Some d) ->
    readOne (to_unicode (vcal_fix d)) <> None.

(** The principal [Principal.__init__] builds at the URL [u]. *)
Definition principal_at (client_ : option client_ref) (u : URL) : Principal.t :=
  Principal.mk (DAVObject.mk None (Some u) client_ None None None) None.

End Vocabulary.

(** Runs the monad operations that stand between two method calls. *)
Ltac run_monad :=
  cbv beta iota zeta delta
      [bind ret raise get put lift deref subscript get_self modify_self
       get_world modify_world in_world construct try_except fst snd].

(** [run_monad] in a hypothesis. *)
Ltac run_monad_in H :=
  cbv beta iota zeta delta
      [bind ret raise get put lift deref subscript get_self modify_self
       get_world modify_world in_world construct call_on try_except fst snd]
    in H.

(* ================================================================== *)
(** * Properties *)

(** ** Facts about the helpers *)

Module PyStrFacts.
Import PyStr.

Lemma endswith_unfold s suffix :
  endswith s suffix =
  String.eqb s suffix ||
  match s with
  | EmptyString => false
  | String _ s' => endswith s' suffix
  end.
Proof. destruct s; reflexivity. Qed.

Lemma endswith_refl s : endswith s s = true.
Proof. rewrite endswith_unfold, String.eqb_refl. reflexivity. Qed.

Lemma endswith_app p s : endswith (p ++ s)%string s = true.
Proof.
  induction p as [|c p IH].
  - apply endswith_refl.
  - rewrite endswith_unfold. cbn [append]. rewrite IH. apply orb_true_r.
Qed.

Lemma endswith_spec s suffix :
  endswith s suffix = true <-> exists p, s = (p ++ suffix)%string.
Proof.
  split.
  - induction s as [|c s IH]; rewrite endswith_unfold; intros H;
      apply orb_true_iff in H as [H|H].
    + apply String.eqb_eq in H. subst. exists "". reflexivity.
    + discriminate.
    + apply String.eqb_eq in H. exists "". exact H.
    + destruct (IH H) as [p Hp]. exists (String c p). cbn [append].
      now rewrite <- Hp.
  - intros [p ->]. apply endswith_app.
Qed.

End PyStrFacts.

Lemma okey_eqb_eq a b : okey_eqb a b = true <-> a = b.
Proof.
  destruct a, b; simpl; split; intros H; try discriminate; try reflexivity.
  - apply String.eqb_eq in H. now subst.
  - inversion H. apply String.eqb_refl.
Qed.

Lemma dict_mem_get {K V : Type} (eqb : K -> K -> bool) (k : K) (d : @Dict.t K V) :
  Dict.mem eqb k d = true -> exists v, Dict.get eqb k d = Some v.
Proof.
  unfold Dict.mem, Dict.keys.
  induction d as [|[k' v'] d IH]; simpl; intros H.
  - discriminate.
  - destruct (eqb k k'); [eexists; reflexivity | apply IH, H].
Qed.

(* ------------------------------------------------------------------ *)
(** ** Saving a calendar object *)

Section CalendarObjectSave.
Context `{U : UrlLib} `{V : VObjectLib}.
Variable env : Env.

(** C10: on a calendar object resource whose structured instance was never
    set, [save] issues no request and returns the resource unchanged: the
    result is the resource itself and neither the resource (its url and
    id included) nor the world (the request log included) changes. *)
Theorem save_without_instance_is_noop :
  forall (r : CalendarObjectResource.t) (w : World),
    CalendarObjectResource._instance r = None ->
    CalendarObjectResource.save env (r, w) = (Ok r, (r, w)).
Proof.
  intros r w H.
  unfold CalendarObjectResource.save, bind, get_self; simpl.
  rewrite H. reflexivity.
Qed.
End CalendarObjectSave.

(** C10 on an example: an event that was given no content. *)
Lemma save_without_instance_is_noop_witness :
  CalendarObjectResource.save Fixture.friendly (Fixture.blank_event, Fixture.w0)
  = (Ok Fixture.blank_event, (Fixture.blank_event, Fixture.w0)).
Proof.
  apply (save_without_instance_is_noop Fixture.friendly Fixture.blank_event Fixture.w0).
  reflexivity.
Defined.

(* ------------------------------------------------------------------ *)
(** ** The two representations of a calendar object *)

Section Representations.
Context `{U : UrlLib} `{V : VObjectLib}.

End Representations.



(* ------------------------------------------------------------------ *)
(** ** Creating a calendar collection *)

Section CalendarSave.
Context `{U : UrlLib} `{V : VObjectLib}.
Variable env : Env.

(** C8: when [save] on a calendar without a URL returns normally, the
    calendar it returns (and leaves as the state of [self]) has a URL
    whose text ends in a slash; this covers the case in which the
    name-based URL was adopted, since the slash is appended after
    [_create]. *)
Theorem saved_calendar_url_ends_with_slash :
  url_text_laws ->
  forall (c c' c'' : Calendar.t) (w w' : World),
    DAVObject.url c = None ->
    Calendar.save env (c, w) = (Ok c', (c'', w')) ->
    c'' = c' /\
    exists u : URL,
      DAVObject.url c' = Some u /\ PyStr.endswith (url_str u) "/" = true.
Proof.
  intros [Hends Hstr] c c' c'' w w' Hurl Hsave.
  unfold Calendar.save in Hsave.
  unfold bind at 1 2 in Hsave. unfold get_self at 1 in Hsave.
  cbn [fst snd] in Hsave. rewrite Hurl in Hsave.
  unfold bind at 1 in Hsave.
  destruct (Calendar._create env _ _ _ (c, w)) as [[[]|e] [c1 w1]];
    [|discriminate].
  unfold bind at 1 in Hsave. unfold get_self at 1 in Hsave.
  cbn [fst snd] in Hsave.
  unfold bind at 1 in Hsave.
  destruct (DAVObject.url c1) as [u|] eqn:Eu; cbn in Hsave; [|discriminate].
  unfold ret in Hsave.
  destruct (url_endswith u "/") eqn:Ee; cbn in Hsave;
    inversion Hsave; subst; split; try reflexivity.
  - exists u. split; [exact Eu|]. rewrite <- Hends. exact Ee.
  - eexists. split; [reflexivity|]. rewrite Hstr.
    apply PyStrFacts.endswith_app.
Qed.
End CalendarSave.

Lemma simple_url_text_laws : @url_text_laws SimpleUrl.lib.
Proof. split; intros; reflexivity. Qed.

(** C8 on an example: a calendar named Work created under a home set. *)
Lemma saved_calendar_url_ends_with_slash_witness :
  exists (c : Calendar.t) (w' : World),
    Calendar.save Fixture.friendly
      (Fixture.new_calendar, Fixture.w0) = (Ok c, (c, w'))
    /\ exists u : URL,
        DAVObject.url c = Some u /\ PyStr.endswith (url_str u) "/" = true.
Proof.
  assert (E : exists c w',
             Calendar.save Fixture.friendly
               (Fixture.new_calendar, Fixture.w0) = (Ok c, (c, w'))).
  { vm_compute. eexists. eexists. reflexivity. }
  destruct E as (c & w' & E).
  exists c, w'. split; [exact E|].
  apply (saved_calendar_url_ends_with_slash Fixture.friendly
           simple_url_text_laws Fixture.new_calendar c c Fixture.w0 w' eq_refl E).
Defined.

(* ------------------------------------------------------------------ *)
(** ** Reading the properties of one resource *)

Section GetProperties.
Context `{U : UrlLib}.
Variable env : Env.

(** C9: once the PROPFIND has been answered and parsed into [properties],
    [get_properties] returns the entry stored under the exact path of the
    resource's URL when there is one, else the entry stored under that path
    followed by a slash when there is one, and else raises the plain
    [Exception] about path handling (none of the typed DAV errors).  In all
    three cases the single PROPFIND is the only request issued. *)
Theorem get_properties_exact_or_slash_or_fatal :
  forall (self : DAVObject.t) (props : list ET.xml) (depth : Z)
         (w w1 : World) (resp : response) (properties : DAVObject.propmap)
         (u : URL),
    DAVObject._query_properties env self props depth w = (Ok resp, w1) ->
    DAVObject._handle_prop_response resp props None ET.what_text = Ok properties ->
    DAVObject.url self = Some u ->
    let path := url_path u in
    let exchange_path := (url_path u ++ "/")%string in
    let outcome := DAVObject.get_properties env self props depth w in
    (exists body, log w1 = log w ++ [Query propfind (Some u) body depth])
    /\ (Dict.mem okey_eqb (Some path) properties = true ->
        exists rc, Dict.get okey_eqb (Some path) properties = Some rc
                   /\ outcome = (Ok rc, w1))
    /\ (Dict.mem okey_eqb (Some path) properties = false ->
        Dict.mem okey_eqb (Some exchange_path) properties = true ->
        exists rc, Dict.get okey_eqb (Some exchange_path) properties = Some rc
                   /\ outcome = (Ok rc, w1))
    /\ (Dict.mem okey_eqb (Some path) properties = false ->
        Dict.mem okey_eqb (Some exchange_path) properties = false ->
        outcome = (Raise (Exception path_handling_message), w1)).
Proof.
  intros self props depth w w1 resp properties u Hq Hh Hu path exchange_path outcome.
  assert (Hout : outcome =
            (if Dict.mem okey_eqb (Some path) properties then
               deref (Dict.get okey_eqb (Some path) properties)
             else if Dict.mem okey_eqb (Some exchange_path) properties then
               deref (Dict.get okey_eqb (Some exchange_path) properties)
             else raise (Exception path_handling_message)) w1).
  { subst outcome. unfold DAVObject.get_properties.
    unfold bind at 1. rewrite Hq.
    unfold bind at 1. unfold lift at 1. rewrite Hh.
    unfold bind at 1. rewrite Hu. reflexivity. }
  split; [|split; [|split]].
  - unfold DAVObject._query_properties, DAVObject._query in Hq.
    rewrite Hu in Hq. unfold bind at 1 in Hq.
    destruct (DAVObject.client self); cbn in Hq; [|discriminate].
    eexists.
    match type of Hq with
    | (if ?a then _ else _) _ = _ => destruct a; [discriminate|]
    end.
    match type of Hq with
    | (if ?a then _ else _) _ = _ => destruct a; [discriminate|]
    end.
    inversion Hq; subst. reflexivity.
  - intros Hm. destruct (dict_mem_get _ _ _ Hm) as [rc Hrc].
    exists rc. split; [exact Hrc|]. rewrite Hout, Hm, Hrc. reflexivity.
  - intros Hm Hm'. destruct (dict_mem_get _ _ _ Hm') as [rc Hrc].
    exists rc. split; [exact Hrc|]. rewrite Hout, Hm, Hm', Hrc. reflexivity.
  - intros Hm Hm'. rewrite Hout, Hm, Hm'. reflexivity.
Qed.
End GetProperties.

(** C9 on an example: the home set asks for its display name. *)
Lemma get_properties_exact_or_slash_or_fatal_witness :
  exists rc w1,
    DAVObject.get_properties Fixture.friendly Fixture.home
      [elem Tags.DisplayName] 0 Fixture.w0 = (Ok rc, w1).
Proof.
  edestruct (get_properties_exact_or_slash_or_fatal
               Fixture.friendly Fixture.home [elem Tags.DisplayName] 0
               Fixture.w0) as (_ & H & _).
  - vm_compute. reflexivity.
  - vm_compute. reflexivity.
  - reflexivity.
  - destruct (H eq_refl) as (rc & _ & E).
    eexists. eexists. exact E.
Defined.

(* ------------------------------------------------------------------ *)
(** ** Parsing a multistatus response *)

Lemma dict_keys_set (k k0 : option string) {V : Type} (v : V)
    (d : @Dict.t (option string) V) :
  In k (Dict.keys (Dict.set okey_eqb k0 v d)) <-> k = k0 \/ In k (Dict.keys d).
Proof.
  unfold Dict.keys.
  induction d as [|[k' v'] d IH]; simpl.
  - intuition congruence.
  - destruct (okey_eqb k0 k') eqn:E; simpl.
    + apply okey_eqb_eq in E. subst. intuition congruence.
    + rewrite IH. intuition congruence.
Qed.

Section HandlePropResponse.

Lemma handle_props_total (r : ET.xml) (props : list ET.xml)
    (type : option string) (what : ET.what_attr) :
  (forall p, In p props -> ET.find r (ET.tag p) <> None) ->
  forall d, exists d', DAVObject.handle_props r props type what d = Ok d'.
Proof.
  induction props as [|p ps IH]; intros Hall d; simpl.
  - eexists; reflexivity.
  - destruct (ET.find r (ET.tag p)) eqn:E.
    + apply IH. intros q Hq. apply Hall. now right.
    + exfalso. apply (Hall p (or_introl eq_refl)). exact E.
Qed.

Lemma handle_responses_spec (raw_ : string) (props : list ET.xml)
    (type : option string) (what : ET.what_attr) (rs : list ET.xml) :
  Forall (entry_well_formed props) rs ->
  forall acc : DAVObject.propmap,
    ((exists r, In r rs /\ classify r = status_other) ->
     DAVObject.handle_responses raw_ rs props type what acc
     = Raise (ReportError raw_))
    /\ ((forall r, In r rs -> classify r <> status_other) ->
        exists properties,
          DAVObject.handle_responses raw_ rs props type what acc = Ok properties
          /\ forall k, In k (Dict.keys properties) <->
                       In k (Dict.keys acc)
                       \/ exists r, In r rs /\ classify r = status_200
                                    /\ entry_href r = k).
Proof.
  induction 1 as [|r rs [Hst Hok] Hwf IH]; intros acc.
  - split.
    + intros (r & [] & _).
    + intros _. exists acc. split; [reflexivity|].
      intros k. split; [now left|]. intros [H|(r & [] & _)]. exact H.
  - unfold classify, status_line in Hst, Hok.
    cbn [DAVObject.handle_responses].
    destruct (ET.find r Tags.Status) as [st|] eqn:Est; [|congruence].
    destruct (ET.text st) as [line|] eqn:Eline; [|congruence].
    assert (Hcl : classify r =
                  if PyStr.endswith line "200 OK" then status_200
                  else if PyStr.endswith line "404 Not Found" then status_404
                  else status_other).
    { unfold classify, status_line. rewrite Est, Eline. reflexivity. }
    destruct (PyStr.endswith line "200 OK") eqn:E200; cbn [negb];
      [|destruct (PyStr.endswith line "404 Not Found") eqn:E404].
    + (* included *)
      destruct (Hok eq_refl) as [Hhref Hprops].
      destruct (ET.find r Tags.Href) as [h|] eqn:Eh; [|congruence].
      destruct (handle_props_total r props type what Hprops Dict.empty)
        as [d Hd].
      rewrite Hd.
      destruct (IH (Dict.set okey_eqb (ET.text h) d acc)) as [IHbad IHgood].
      split.
      * intros (r' & [<-|Hin] & Hc); [congruence|].
        apply IHbad. now exists r'.
      * intros Hall.
        destruct IHgood as (m & Hm & Hkeys).
        { intros r' Hin. apply Hall. now right. }
        exists m. split; [exact Hm|].
        intros k. rewrite Hkeys, dict_keys_set.
        assert (Hr : entry_href r = ET.text h)
          by (unfold entry_href; now rewrite Eh).
        split.
        -- intros [[-> | Hk] | (r' & Hin & Hc & Hh)].
           ++ right. exists r. repeat split; [now left | exact Hcl | exact Hr].
           ++ now left.
           ++ right. exists r'. simpl. tauto.
        -- intros [Hk | (r' & [<-|Hin] & Hc & Hh)].
           ++ left. now right.
           ++ left. left. congruence.
           ++ right. exists r'. simpl. tauto.
    + (* silently ignored *)
      destruct (IH acc) as [IHbad IHgood].
      split.
      * intros (r' & [<-|Hin] & Hc); [congruence|].
        apply IHbad. now exists r'.
      * intros Hall.
        destruct IHgood as (m & Hm & Hkeys).
        { intros r' Hin. apply Hall. now right. }
        exists m. split; [exact Hm|].
        intros k. rewrite Hkeys. split.
        -- intros [Hk | (r' & Hin & Hc & Hh)]; [now left|].
           right. exists r'. simpl. tauto.
        -- intros [Hk | (r' & [<-|Hin] & Hc & Hh)].
           ++ now left.
           ++ congruence.
           ++ right. exists r'. simpl. tauto.
    + (* rejected *)
      split.
      * intros _. reflexivity.
      * intros Hall. exfalso. apply (Hall r (or_introl eq_refl)). exact Hcl.
Qed.

(** C1: for a multistatus body whose response entries are well formed, the
    handler raises ReportError (carrying the raw response) as soon as some
    entry has a status line that ends neither in 200 OK nor in
    404 Not Found; otherwise it returns a mapping whose keys are exactly
    the hrefs of the entries with a 200 OK status line, so that every such
    entry is included under its href and an entry with a 404 Not Found
    line contributes nothing. *)
Theorem handle_prop_response_status_policy :
  forall (resp : response) (root : ET.xml) (props : list ET.xml)
         (type : option string) (what : ET.what_attr),
    tree resp = Some root ->
    Forall (entry_well_formed props) (ET.findall root Tags.Response) ->
    let entries := ET.findall root Tags.Response in
    let outcome := DAVObject._handle_prop_response resp props type what in
    ((exists r, In r entries /\ classify r = status_other) ->
     outcome = Raise (ReportError (raw resp)))
    /\ ((forall r, In r entries -> classify r <> status_other) ->
        exists properties,
          outcome = Ok properties
          /\ (forall r, In r entries -> classify r = status_200 ->
                        In (entry_href r) (Dict.keys properties))
          /\ (forall k, In k (Dict.keys properties) ->
                        exists r, In r entries /\ classify r = status_200
                                  /\ entry_href r = k)).
Proof.
  intros resp root props type what Htree Hwf entries outcome.
  subst outcome. unfold DAVObject._handle_prop_response. rewrite Htree.
  destruct (handle_responses_spec (raw resp) props type what _ Hwf Dict.empty)
    as [Hbad Hgood].
  split; [exact Hbad|].
  intros Hall. destruct (Hgood Hall) as (m & Hm & Hkeys).
  exists m. split; [exact Hm|]. split.
  - intros r Hin Hc. apply Hkeys. right. exists r. auto.
  - intros k Hk. apply Hkeys in Hk. destruct Hk as [[]|H]. exact H.
Qed.
End HandlePropResponse.

(** C1 on an example: a listing with two 200 entries and one 404 entry. *)
Lemma handle_prop_response_status_policy_witness :
  exists properties,
    DAVObject._handle_prop_response Fixture.listing
      [elem Tags.ResourceType] None ET.what_tag = Ok properties
    /\ In (Some "/home/work/") (Dict.keys properties).
Proof.
  assert (Hwf : Forall (entry_well_formed [elem Tags.ResourceType])
                  (ET.findall (Fixture.multistatus_root Fixture.listing_entries)
                     Tags.Response)).
  { repeat constructor; try (vm_compute; discriminate);
      intros p [<-|[]]; vm_compute; discriminate. }
  destruct (handle_prop_response_status_policy Fixture.listing _
              [elem Tags.ResourceType] None ET.what_tag eq_refl Hwf)
    as [_ H].
  destruct H as (properties & Hout & Hin & _).
  { intros r Hr. vm_compute in Hr.
    destruct Hr as [<-|[<-|[<-|[]]]]; vm_compute; discriminate. }
  exists properties. split; [exact Hout|].
  apply (Hin Fixture.work_entry).
  - vm_compute. tauto.
  - reflexivity.
Defined.

(* ------------------------------------------------------------------ *)
(** ** Listing the children of a collection *)

Lemma okey_eqb_refl (k : option string) : okey_eqb k k = true.
Proof. now apply okey_eqb_eq. Qed.

Lemma dict_get_set (k k0 : option string) {V : Type} (v : V)
    (d : @Dict.t (option string) V) :
  Dict.get okey_eqb k (Dict.set okey_eqb k0 v d)
  = if okey_eqb k k0 then Some v else Dict.get okey_eqb k d.
Proof.
  induction d as [|[k' v'] d IH]; simpl.
  - reflexivity.
  - destruct (okey_eqb k0 k') eqn:E0; simpl.
    + apply okey_eqb_eq in E0. subst k'.
      destruct (okey_eqb k k0); reflexivity.
    + rewrite IH.
      destruct (okey_eqb k k') eqn:E1; [|reflexivity].
      destruct (okey_eqb k k0) eqn:E2; [|reflexivity].
      apply okey_eqb_eq in E1, E2. subst.
      rewrite okey_eqb_refl in E0. discriminate.
Qed.

Lemma dict_key_get {V : Type} (k : option string) (d : @Dict.t (option string) V) :
  In k (Dict.keys d) -> exists v, Dict.get okey_eqb k d = Some v.
Proof.
  intros H. apply dict_mem_get. unfold Dict.mem.
  apply existsb_exists. exists k. split; [exact H | apply okey_eqb_refl].
Qed.

Lemma handle_responses_resourcetype (raw_ : string) (type : option string)
    (what : ET.what_attr) (rs : list ET.xml) :
  forall acc properties,
    has_resourcetype acc ->
    DAVObject.handle_responses raw_ rs [elem Tags.ResourceType] type what acc
    = Ok properties ->
    has_resourcetype properties.
Proof.
  induction rs as [|r rs IH]; intros acc properties Hacc; simpl.
  - intros H. inversion H; subst. exact Hacc.
  - destruct (ET.find r Tags.Status) as [st|]; [|discriminate].
    destruct (ET.text st) as [line|]; [|discriminate].
    destruct (PyStr.endswith line "200 OK"); simpl.
    + destruct (ET.find r Tags.Href) as [h|]; [|discriminate].
      destruct (ET.find r Tags.ResourceType) as [t_|]; [|discriminate].
      apply IH. intros k pv. rewrite dict_get_set.
      destruct (okey_eqb k (ET.text h)); [|apply Hacc].
      intros H. inversion H; subst. eexists. reflexivity.
    + destruct (PyStr.endswith line "404 Not Found"); [|discriminate].
      apply IH. exact Hacc.
Qed.

Section Children.
Context `{U : UrlLib}.
Variable env : Env.

Lemma children_loop_spec (self : DAVObject.t) (type : option string)
    (properties : DAVObject.propmap) (u : URL) :
  DAVObject.url self = Some u ->
  has_resourcetype properties ->
  forall paths c,
    (forall path, In path paths -> In path (Dict.keys properties)) ->
    exists c',
      DAVObject.children_loop self type properties paths c = Ok c'
      /\ forall x, In x c' <->
                   In x c \/ exists path, In path paths
                                          /\ reported u type properties path x.
Proof.
  intros Hu Hrt. induction paths as [|path paths IH]; intros c Hkeys.
  - exists c. split; [reflexivity|]. intros x. split; [now left|].
    intros [H|(p & [] & _)]. exact H.
  - cbn [DAVObject.children_loop].
    destruct (dict_key_get path properties (Hkeys path (or_introl eq_refl)))
      as [pv Hpv].
    destruct (Hrt _ _ Hpv) as [rt Hrtv].
    rewrite Hpv, Hrtv, Hu.
    fold (type_matches rt type).
    fold (same_resource u (url_join u (pyurl_of_ostr path))).
    assert (Hkeys' : forall p, In p paths -> In p (Dict.keys properties))
      by (intros p Hp; apply Hkeys; now right).
    assert (Hskip :
      (type_matches rt type = false
       \/ same_resource u (url_join u (pyurl_of_ostr path)) = true) ->
      forall x, ~ reported u type properties path x).
    { intros Hno x (pv' & rt' & H1 & H2 & H3 & H4 & _).
      rewrite Hpv in H1. inversion H1; subst pv'.
      rewrite Hrtv in H2. inversion H2; subst rt'.
      destruct Hno; congruence. }
    destruct (type_matches rt type) eqn:Et;
      [destruct (same_resource u (url_join u (pyurl_of_ostr path))) eqn:Es|];
      cbn [negb].
    + destruct (IH c Hkeys') as (c' & Hc' & Hin). exists c'.
      split; [exact Hc'|]. intros x. rewrite Hin. split.
      * intros [H|(p & Hp & Hr)]; [now left|]. right. exists p. simpl. tauto.
      * intros [H|(p & [<-|Hp] & Hr)]; [now left| |].
        -- exfalso. apply (Hskip (or_intror eq_refl) x Hr).
        -- right. exists p. tauto.
    + destruct (IH (c ++ [(url_join u (pyurl_of_ostr path), rt)]) Hkeys')
        as (c' & Hc' & Hin).
      exists c'. split; [exact Hc'|]. intros x. rewrite Hin, in_app_iff.
      split.
      * intros [[H|[<-|[]]]|(p & Hp & Hr)]; [now left| |].
        -- right. exists path. split; [now left|].
           exists pv, rt. repeat split; assumption.
        -- right. exists p. simpl. tauto.
      * intros [H|(p & [<-|Hp] & Hr)]; [now (left; left)| |].
        -- destruct Hr as (pv' & rt' & H1 & H2 & _ & _ & ->).
           rewrite Hpv in H1. inversion H1; subst pv'.
           rewrite Hrtv in H2. inversion H2; subst rt'.
           left. right. now left.
        -- right. exists p. tauto.
    + destruct (IH c Hkeys') as (c' & Hc' & Hin). exists c'.
      split; [exact Hc'|]. intros x. rewrite Hin. split.
      * intros [H|(p & Hp & Hr)]; [now left|]. right. exists p. simpl. tauto.
      * intros [H|(p & [<-|Hp] & Hr)]; [now left| |].
        -- exfalso. apply (Hskip (or_introl eq_refl) x Hr).
        -- right. exists p. tauto.
Qed.

(** C5: once the depth-1 PROPFIND for resourcetype has been answered and
    parsed into [properties], [children] returns a list [c] such that no
    pair of [c] has a URL that equals the resource's own URL after both
    have lost their trailing slash, and the pairs of [c] are exactly the
    pairs (joined URL, resource type) of the listed paths whose resource
    type matches the requested type (any type when none is requested) and
    whose normalized URL differs from the resource's own. *)
Theorem children_excludes_self_and_keeps_the_rest :
  forall (self : DAVObject.t) (type : option string) (w w1 : World)
         (resp : response) (properties : DAVObject.propmap) (u : URL),
    DAVObject._query_properties env self [elem Tags.ResourceType] 1 w
    = (Ok resp, w1) ->
    DAVObject._handle_prop_response resp [elem Tags.ResourceType] type
      ET.what_tag = Ok properties ->
    DAVObject.url self = Some u ->
    exists c,
      DAVObject.children env self type w = (Ok c, w1)
      /\ (forall cu rt, In (cu, rt) c -> same_resource u cu = false)
      /\ (forall x, In x c <->
                    exists path, In path (Dict.keys properties)
                                 /\ reported u type properties path x).
Proof.
  intros self type w w1 resp properties u Hq Hh Hu.
  assert (Hrt : has_resourcetype properties).
  { unfold DAVObject._handle_prop_response in Hh.
    destruct (tree resp); [|discriminate].
    apply (handle_responses_resourcetype _ _ _ _ Dict.empty _) in Hh;
      [exact Hh|].
    intros k pv H. discriminate. }
  destruct (children_loop_spec self type properties u Hu Hrt
              (Dict.keys properties) [] (fun _ H => H)) as (c & Hc & Hin).
  exists c. split; [|split].
  - unfold DAVObject.children. unfold bind at 1. rewrite Hq.
    unfold bind at 1. unfold lift at 1. rewrite Hh.
    unfold lift. rewrite Hc. reflexivity.
  - intros cu rt Hx. apply Hin in Hx. destruct Hx as [[]|(p & _ & Hr)].
    destruct Hr as (pv & rt' & _ & _ & _ & Hs & E).
    inversion E; subst. exact Hs.
  - intros x. rewrite Hin. split.
    + intros [[]|H]. exact H.
    + intros H. now right.
Qed.
End Children.

(** C5 on an example: the listing of the home set, which lists itself. *)
Lemma children_excludes_self_and_keeps_the_rest_witness :
  exists c w1,
    DAVObject.children (U := SimpleUrl.lib) Fixture.lister Fixture.home None
      Fixture.w0 = (Ok c, w1)
    /\ forall cu rt,
         In (cu, rt) c ->
         same_resource (U := SimpleUrl.lib) "http://cal.example.com/home/" cu
         = false.
Proof.
  edestruct (children_excludes_self_and_keeps_the_rest
               Fixture.lister Fixture.home None Fixture.w0)
    as (c & Hc & Hself & _).
  - vm_compute. reflexivity.
  - vm_compute. reflexivity.
  - reflexivity.
  - exists c. eexists. split; [exact Hc | exact Hself].
Defined.

(* ------------------------------------------------------------------ *)
(** ** The query primitive *)

Section Query.
Context `{U : UrlLib}.
Variable env : Env.

(** What [_query] does on an object that has a client: one request, then
    the mapping of the status to an exception. *)
Lemma query_outcome (self : DAVObject.t) (root : option ET.xml) (depth : Z)
    (m : query_method) (url_ : option URL) (expected : option Z) (w : World)
    (cl : client_ref) :
  DAVObject.client self = Some cl ->
  let req := Query m (match url_ with
                      | None => DAVObject.url self
                      | Some u => Some u
                      end) root depth in
  let r := server env (log w ++ [req]) in
  DAVObject._query env self root depth m url_ expected w
  = (if (status r =? 404)%Z then Raise (NotFoundError (raw r))
     else if (match expected with
              | Some e => negb (status r =? e)%Z
              | None => false
              end || (400 <=? status r)%Z)
          then Raise (exception_by_method m (raw r))
          else Ok r,
     logged req w).
Proof.
  intros Hc req r. unfold DAVObject._query. rewrite Hc.
  unfold bind, deref, ret, client_call. cbn [log logged].
  fold req. fold r.
  destruct (status r =? 404)%Z; [reflexivity|].
  destruct (match expected with
            | Some e => negb (status r =? e)%Z
            | None => false
            end || (400 <=? status r)%Z); reflexivity.
Qed.

(** Whatever its outcome, [set_properties] on an object that has a client
    issues exactly one request, the PROPPATCH. *)
Lemma set_properties_log (self : DAVObject.t) (props : list ET.xml)
    (w : World) (cl : client_ref) :
  DAVObject.client self = Some cl ->
  log (snd (DAVObject.set_properties env self props w))
  = log w ++ [Query proppatch (DAVObject.url self)
                (Some (propertyupdate_of props)) 0].
Proof.
  intros Hc. unfold DAVObject.set_properties.
  unfold bind at 1.
  rewrite (query_outcome self _ 0 proppatch None None w cl Hc).
  cbv beta iota zeta.
  destruct (status _ =? 404)%Z; [reflexivity|].
  destruct (false || (400 <=? status _)%Z); [reflexivity|].
  unfold bind at 1.
  destruct (tree _); cbn [deref ret raise]; [|reflexivity].
  unfold bind, lift.
  destruct (DAVObject.check_statuses _ _); reflexivity.
Qed.
End Query.

(* ------------------------------------------------------------------ *)
(** ** Looking an event up by its uid *)

Section EventByUid.
Context `{U : UrlLib} `{V : VObjectLib}.
Variable env : Env.

(** C4: [event_by_uid] on a calendar with a client issues one REPORT at
    depth 1 and then: raises NotFoundError on status 404; raises ReportError
    on status 400; on a status below 400 whose body has no response entry,
    raises NotFoundError; on a status below 400 whose body has a response
    entry, returns the one Event built from the href and the calendar-data
    of the first entry (for a first entry that has an href with text and a
    calendar-data element that is empty or holds a text that parses). *)
Theorem event_by_uid_outcomes :
  forall (self : Calendar.t) (uid : string) (w : World) (cl : client_ref),
    DAVObject.client self = Some cl ->
    let req := Query report (DAVObject.url self)
                 (Some (Calendar.uid_query uid)) 1 in
    let resp := server env (log w ++ [req]) in
    let outcome := Calendar.event_by_uid env self uid w in
    (status resp = 404%Z ->
     outcome = (Raise (NotFoundError (raw resp)), logged req w))
    /\ (status resp = 400%Z ->
        outcome = (Raise (ReportError (raw resp)), logged req w))
    /\ (forall root,
          (status resp < 400)%Z -> tree resp = Some root ->
          ET.findall root Tags.Response = [] ->
          outcome = (Raise (NotFoundError (raw resp)), logged req w))
    /\ (forall root r rest h cd href data inst,
          (status resp < 400)%Z -> tree resp = Some root ->
          ET.findall root Tags.Response = r :: rest ->
          ET.find r Tags.Href = Some h -> ET.text h = Some href ->
          ET.find r Tags.CalendarData = Some cd -> ET.text cd = Some data ->
          readOne (to_unicode (vcal_fix data)) = Some inst ->
          outcome = (Ok (event_of self (client_url w) href data inst),
                     logged req w))
    /\ (forall root r rest h cd href,
          (status resp < 400)%Z -> tree resp = Some root ->
          ET.findall root Tags.Response = r :: rest ->
          ET.find r Tags.Href = Some h -> ET.text h = Some href ->
          ET.find r Tags.CalendarData = Some cd -> ET.text cd = None ->
          outcome = (Ok (empty_event_of self (client_url w) href),
                     logged req w)).
Proof.
  intros self uid w cl Hc req resp outcome.
  assert (Hq := query_outcome env self (Some (Calendar.uid_query uid)) 1
                  report None None w cl Hc).
  cbv beta iota zeta in Hq. fold req in Hq. fold resp in Hq.
  assert (Hlow : (status resp < 400)%Z ->
                 (status resp =? 404)%Z = false
                 /\ (400 <=? status resp)%Z = false
                 /\ (status resp =? 400)%Z = false) by lia.
  subst outcome.
  repeat split; unfold Calendar.event_by_uid; unfold bind at 1; rewrite Hq.
  - intros ->. reflexivity.
  - intros ->. reflexivity.
  - intros root Hs Ht Hf. destruct (Hlow Hs) as (E1 & E2 & E3).
    rewrite E1. cbn [orb]. rewrite E2, E1, E3.
    unfold bind at 1. rewrite Ht. cbn [deref ret].
    unfold ET.find. rewrite Hf. reflexivity.
  - intros root r rest h cd href data inst Hs Ht Hf Hh Hhref Hcd Hdata Hp.
    destruct (Hlow Hs) as (E1 & E2 & E3).
    rewrite E1. cbn [orb]. rewrite E2, E1, E3.
    unfold bind at 1. rewrite Ht. cbn [deref ret].
    unfold ET.find at 1. rewrite Hf. cbn [hd_error].
    unfold bind at 1. rewrite Hh. cbn [deref ret].
    unfold bind at 1. rewrite Hcd. cbn [deref ret].
    rewrite Hhref, Hdata. cbn [pyurl_of_ostr objectify].
    unfold CalendarObjectResource.init, DAVObject.init, event_of.
    rewrite Hc.
    unfold bind, get, ret, construct, CalendarObjectResource.set_data,
      modify_self, get_self, deref.
    cbn. rewrite Hp.
    destruct (url_bool (url_of_str href)); reflexivity.
  - intros root r rest h cd href Hs Ht Hf Hh Hhref Hcd Hdata.
    destruct (Hlow Hs) as (E1 & E2 & E3).
    rewrite E1. cbn [orb]. rewrite E2, E1, E3.
    unfold bind at 1. rewrite Ht. cbn [deref ret].
    unfold ET.find at 1. rewrite Hf. cbn [hd_error].
    unfold bind at 1. rewrite Hh. cbn [deref ret].
    unfold bind at 1. rewrite Hcd. cbn [deref ret].
    rewrite Hhref, Hdata. cbn [pyurl_of_ostr objectify].
    unfold CalendarObjectResource.init, DAVObject.init, empty_event_of.
    rewrite Hc. run_monad.
    cbn [pyurl_bool objectify client_url logged].
    destruct (url_bool (url_of_str href)); reflexivity.
Qed.
End EventByUid.

(** C4 on an example: a REPORT that finds the event abc123. *)
Lemma event_by_uid_outcomes_witness :
  exists w1,
    Calendar.event_by_uid Fixture.finder Fixture.work "abc123" Fixture.w0
    = (Ok (event_of (V := SimpleCal.lib) Fixture.work
             "http://cal.example.com/" "/home/work/abc123.ics"
             "vevent:abc123" ("vevent", "abc123")), w1).
Proof.
  eexists.
  eapply (proj1 (proj2 (proj2 (proj2
            (event_by_uid_outcomes Fixture.finder Fixture.work "abc123"
               Fixture.w0 the_client eq_refl))))).
  - vm_compute. reflexivity.
  - vm_compute. reflexivity.
  - vm_compute. reflexivity.
  - vm_compute. reflexivity.
  - reflexivity.
  - vm_compute. reflexivity.
  - reflexivity.
  - reflexivity.
Defined.

(* ------------------------------------------------------------------ *)
(** ** Creating a calendar object *)

Section CalendarObjectCreate.
Context `{U : UrlLib} `{V : VObjectLib}.
Variable env : Env.

(** Once the id and the path are settled, [_create] issues one PUT of the
    data, with the calendar content type, to the path joined to the
    parent's URL, and: on 302 takes the location header as the URL; on 201
    and 204 takes the target as the URL; on any other status raises
    PutError and leaves the object as it was. *)
Lemma create_outcome (r : CalendarObjectResource.t) (w : World)
    (data : string) (id_ : option string) (path : option string)
    (idv : option string) (pathv : string) (p : DAVObject.t) (pu : URL)
    (cl : client_ref) :
  CalendarObjectResource.derive_id r id_ path = Ok idv ->
  CalendarObjectResource.derive_path idv path = Ok pathv ->
  DAVObject.parent (CalendarObjectResource.base r) = Some p ->
  DAVObject.url p = Some pu ->
  DAVObject.client (CalendarObjectResource.base r) = Some cl ->
  let target := url_join pu (UStr pathv) in
  let req := Put target data CalendarObjectResource.content_type in
  let resp := server env (log w ++ [req]) in
  CalendarObjectResource._create env data id_ path (r, w)
  = match CalendarObjectResource.put_result target resp with
    | Ok new_path => (Ok tt, (created r (objectify new_path) idv, logged req w))
    | Raise e => (Raise e, (r, logged req w))
    end.
Proof.
  intros Hid Hpath Hp Hpu Hc target req resp.
  unfold CalendarObjectResource._create.
  unfold bind at 1. unfold get_self at 1. cbn [fst snd].
  unfold bind at 1. unfold lift at 1. rewrite Hid.
  unfold bind at 1. unfold lift at 1. rewrite Hpath.
  unfold bind at 1. rewrite Hp. cbn [deref ret].
  unfold bind at 1. rewrite Hpu. cbn [deref ret].
  unfold bind at 1. rewrite Hc. cbn [deref ret].
  unfold bind at 1. unfold in_world, client_call. cbn [fst snd log logged].
  fold target. fold req. fold resp.
  unfold bind at 1. unfold lift at 1.
  destruct (CalendarObjectResource.put_result target resp); reflexivity.
Qed.

(** With no id given and a path ending in [.ics], the id is group 2 of the
    leftmost match of the pattern in the path. *)
Lemma derive_id_from_ics_path (r : CalendarObjectResource.t) (p g : string) :
  PyStr.endswith p ".ics" = true ->
  Re.search_ics_group2 p = Some g ->
  CalendarObjectResource.derive_id r None (Some p) = Ok (Some g).
Proof.
  intros He Hg. unfold CalendarObjectResource.derive_id.
  rewrite He, Hg. reflexivity.
Qed.
End CalendarObjectCreate.

(** C2, at the failing input: an event bound to
    http://cal.example.com/topics/e1.ics, with content but no id, is
    saved.  The PUT goes to that URL and succeeds with 201, the URL is kept,
    and the id becomes [to]: the pattern matches first inside the segment
    [topics] (its dot stands for the [p]), not on the final segment
    [e1.ics], whose stem is [e1]. *)
Theorem id_from_path_is_not_the_final_segment :
  Re.search_ics_group2 "/topics/e1.ics" = Some "to"
  /\ exists w',
      CalendarObjectResource.save Fixture.friendly
        (Fixture.topics_event, Fixture.w0)
      = (Ok (created (U := SimpleUrl.lib) Fixture.topics_event
               (Some "http://cal.example.com/topics/e1.ics") (Some "to")),
         (created (U := SimpleUrl.lib) Fixture.topics_event
            (Some "http://cal.example.com/topics/e1.ics") (Some "to"), w'))
      /\ log w' = [Put (U := SimpleUrl.lib)
                     "http://cal.example.com/topics/e1.ics" "vevent:abc123"
                     CalendarObjectResource.content_type].
Proof.
  split; [reflexivity|].
  eexists. split; vm_compute; reflexivity.
Qed.

(* ------------------------------------------------------------------ *)
(** ** Resolving the calendar home set of a principal *)

Lemma bind_ok {S A B : Type} (m : M S A) (k : A -> M S B) (s s' : S) (a : A) :
  m s = (Ok a, s') -> bind m k s = k a s'.
Proof. intros H. unfold bind. rewrite H. reflexivity. Qed.

Lemma bind_raise {S A B : Type} (m : M S A) (k : A -> M S B) (s s' : S)
    (e : exn) :
  m s = (Raise e, s') -> bind m k s = (Raise e, s').
Proof. intros H. unfold bind. rewrite H. reflexivity. Qed.

Section CalendarHomeSet.
Context `{U : UrlLib}.
Variable env : Env.

Lemma set_client_url_same (w : World) : set_client_url (client_url w) w = w.
Proof. destruct w; reflexivity. Qed.

(** C6, as the code has it: when the PROPFIND of an unresolved principal
    returns [href], the session's base URL becomes the URL of [href] as a
    whole if [href] has a host that differs from the host of the base URL,
    and stays as it is otherwise; the CalendarSet is then built from [href]
    joined to that base URL, stored in the principal and returned.  A later
    access returns the stored CalendarSet and changes nothing: no request
    is issued. *)
Theorem calendar_home_set_rebases_and_caches :
  forall (p : Principal.t) (w w1 : World) (chs : DAVObject.propdict)
         (href : string) (cl : client_ref),
    Principal._calendar_home_set p = None ->
    DAVObject.client (Principal.base p) = Some cl ->
    DAVObject.get_properties env (Principal.base p)
      [elem Tags.CalendarHomeSet] 0 w = (Ok chs, w1) ->
    Dict.get String.eqb home_set_tag chs = Some (Some href) ->
    let sanitized := url_of_str href in
    let c := home_set_of cl sanitized (client_url w1) in
    let p' := Principal.mk (Principal.base p) (Some c) in
    Principal.calendar_home_set env (p, w)
    = (Ok c, (p', set_client_url (rebased sanitized (client_url w1)) w1))
    /\ (other_host sanitized (client_url w1) = true ->
        rebased sanitized (client_url w1) = sanitized)
    /\ (other_host sanitized (client_url w1) = false ->
        set_client_url (rebased sanitized (client_url w1)) w1 = w1)
    /\ forall w2 : World,
         Principal.calendar_home_set env (p', w2) = (Ok c, (p', w2)).
Proof.
  intros p w w1 chs href cl Hnone Hc Hg Hv sanitized c p'.
  split; [|split; [|split]].
  - unfold Principal.calendar_home_set.
    unfold bind at 1. unfold get_self at 1. cbn [fst snd]. rewrite Hnone.
    unfold bind at 1. unfold in_world at 1. cbn [fst snd]. rewrite Hg.
    unfold bind at 1. fold home_set_tag. rewrite Hv. cbn [subscript ret].
    cbn [pyurl_of_ostr Principal.calendar_home_set_setter objectify deref].
    fold sanitized. subst c p'.
    unfold home_set_of, rebased, other_host.
    unfold CalendarSet.init, DAVObject.init, Principal.set_chs.
    run_monad. rewrite Hc. run_monad.
    destruct (PyStr.otruthy (url_hostname sanitized)); cbn [andb]; run_monad.
    + destruct (okey_eqb (url_hostname sanitized) (url_hostname (client_url w1)));
        cbn [negb set_client_url client_url pyurl_bool objectify]; run_monad.
      * rewrite set_client_url_same.
        destruct (url_bool (url_join (client_url w1) (UObj sanitized)));
          reflexivity.
      * destruct (url_bool (url_join sanitized (UObj sanitized)));
          reflexivity.
    + cbn [pyurl_bool objectify]. rewrite set_client_url_same.
      destruct (url_bool (url_join (client_url w1) (UObj sanitized)));
        reflexivity.
  - intros H. unfold rebased. rewrite H. reflexivity.
  - intros H. unfold rebased. rewrite H. apply set_client_url_same.
  - intros w2. reflexivity.
Qed.

End CalendarHomeSet.

(** C6 on an example: a principal whose home set is on another host. *)
Lemma calendar_home_set_rebases_and_caches_witness :
  exists (c : CalendarSet.t) (p' : Principal.t) (w' : World),
    Principal.calendar_home_set Fixture.sharded (Fixture.principal, Fixture.w0)
    = (Ok c, (p', w'))
    /\ client_url w' = "http://p01.example.com/123/calendars/"
    /\ forall w2 : World,
         Principal.calendar_home_set Fixture.sharded (p', w2) = (Ok c, (p', w2)).
Proof.
  edestruct (calendar_home_set_rebases_and_caches Fixture.sharded
               Fixture.principal Fixture.w0)
    as (Hrun & _ & _ & Hcache).
  - reflexivity.
  - reflexivity.
  - vm_compute. reflexivity.
  - reflexivity.
  - eexists. eexists. eexists. split; [exact Hrun|]. split.
    + reflexivity.
    + exact Hcache.
Defined.

(** C6 as stated fails: the principal's home set lives at
    http://p01.example.com/123/calendars/ while the session's base URL is
    http://cal.example.com/.  After the resolution the base URL has the new
    host, but its path is /123/calendars/ and no longer /. *)
Lemma calendar_home_set_does_not_keep_the_base_path :
  exists (c : CalendarSet.t) (p' : Principal.t) (w' : World),
    Principal.calendar_home_set Fixture.sharded (Fixture.principal, Fixture.w0)
    = (Ok c, (p', w'))
    /\ url_hostname (client_url Fixture.w0) = Some "cal.example.com"
    /\ url_hostname (client_url w') = Some "p01.example.com"
    /\ ~ only_host_repointed (U := SimpleUrl.lib)
           (client_url Fixture.w0) (client_url w')
           "http://p01.example.com/123/calendars/".
Proof.
  eexists. eexists. eexists. split; [vm_compute; reflexivity|].
  split; [reflexivity|]. split; [reflexivity|].
  intros [_ H]. vm_compute in H. discriminate.
Qed.

(* ------------------------------------------------------------------ *)
(** ** Rolling back a calendar whose display name could not be set *)

Section Rollback.
Context `{U : UrlLib}.
Variable env : Env.

(** What [_create] does once MKCALENDAR has succeeded and the PROPPATCH
    for the display name has raised [e]: a DELETE of the collection's URL
    is issued, and its answer decides which exception leaves [_create]. *)
Lemma create_rollback_outcome (c : Calendar.t) (w : World) (n : string)
    (id_ : option string) (sccs : option (list string)) (p : DAVObject.t)
    (pu : URL) (cl : client_ref) (r : response) (w2 w3 : World) (e : exn) :
  PyStr.truthy n = true ->
  DAVObject.parent c = Some p ->
  DAVObject.url p = Some pu ->
  DAVObject.client c = Some cl ->
  let idv := fst (settled_id env id_ w) in
  let path := url_join pu (UStr idv) in
  let c1 := DAVObject.set_url (Some path) (DAVObject.set_id (Some idv) c) in
  DAVObject._query env c1 (Some (Calendar.mkcalendar_body (Some n) sccs)) 0
    mkcalendar (Some path) (Some 201%Z) (snd (settled_id env id_ w)) = (Ok r, w2) ->
  DAVObject.set_properties env c1 [valued Tags.DisplayName n] w2
  = (Raise e, w3) ->
  let del := server env (log w3 ++ [Delete path]) in
  Calendar._create env (Some n) id_ sccs (c, w)
  = (if delete_accepted del then Raise e else Raise (DeleteError (raw del)),
     (c1, logged (Delete path) w3)).
Proof.
  intros Hn Hp Hpu Hc idv path c1 Hmk Hset del.
  unfold Calendar._create.
  assert (Hid : (match id_ with
                 | Some i => ret i
                 | None => in_world (fresh_uuid env)
                 end) (c, w)
                = (Ok idv, (c, snd (settled_id env id_ w)))).
  { subst idv. destruct id_; reflexivity. }
  rewrite (bind_ok _ _ _ _ _ Hid).
  subst c1 path idv.
  destruct (settled_id env id_ w) as [idv w0]. cbn [fst snd] in *.
  run_monad.
  change (DAVObject.parent (DAVObject.set_id (Some idv) c))
    with (DAVObject.parent c).
  rewrite Hp, Hpu. run_monad. rewrite Hmk.
  cbn [PyStr.otruthy]. rewrite Hn. run_monad. rewrite Hset.
  unfold DAVObject.delete.
  cbn [DAVObject.url DAVObject.set_url DAVObject.client DAVObject.set_id].
  rewrite Hc. run_monad. unfold client_call. cbn [log logged]. fold del.
  unfold delete_accepted.
  destruct ((status del =? 200)%Z || (status del =? 204)%Z
            || (status del =? 404)%Z); reflexivity.
Qed.

(** C7, as the code has it: when a display name was given (a non-empty
    one), MKCALENDAR has succeeded and the PROPPATCH has raised [e], a
    DELETE of the just-created collection URL is the next and last request
    of [_create] (its requests are the MKCALENDAR, the PROPPATCH and that
    DELETE, in this order), and if that DELETE is answered with 200, 204
    or 404 the exception that leaves [_create] is [e] itself. *)
Theorem failed_display_name_rolls_back_and_reraises :
  forall (c : Calendar.t) (w : World) (n : string) (id_ : option string)
         (sccs : option (list string)) (p : DAVObject.t) (pu : URL)
         (cl : client_ref) (r : response) (w2 w3 : World) (e : exn),
    PyStr.truthy n = true ->
    DAVObject.parent c = Some p ->
    DAVObject.url p = Some pu ->
    DAVObject.client c = Some cl ->
    let idv := fst (settled_id env id_ w) in
    let path := url_join pu (UStr idv) in
    let c1 := DAVObject.set_url (Some path) (DAVObject.set_id (Some idv) c) in
    DAVObject._query env c1 (Some (Calendar.mkcalendar_body (Some n) sccs)) 0
      mkcalendar (Some path) (Some 201%Z) (snd (settled_id env id_ w)) = (Ok r, w2) ->
    DAVObject.set_properties env c1 [valued Tags.DisplayName n] w2
    = (Raise e, w3) ->
    let outcome := Calendar._create env (Some n) id_ sccs (c, w) in
    DAVObject.url (fst (snd outcome)) = Some path
    /\ log (snd (snd outcome))
       = log w ++ [Query mkcalendar (Some path)
                     (Some (Calendar.mkcalendar_body (Some n) sccs)) 0;
                   Query proppatch (Some path)
                     (Some (propertyupdate_of [valued Tags.DisplayName n])) 0;
                   Delete path]
    /\ (delete_accepted (server env (log w3 ++ [Delete path])) = true ->
        fst outcome = Raise e).
Proof.
  intros c w n id_ sccs p pu cl r w2 w3 e Hn Hp Hpu Hc idv path c1 Hmk Hset
         outcome.
  pose proof (create_rollback_outcome c w n id_ sccs p pu cl r w2 w3 e
                Hn Hp Hpu Hc Hmk Hset) as E.
  assert (Hc1 : DAVObject.client c1 = Some cl) by exact Hc.
  assert (Hw3 : log w3 = log w2 ++ [Query proppatch (Some path)
                  (Some (propertyupdate_of [valued Tags.DisplayName n])) 0]).
  { pose proof (set_properties_log env c1 [valued Tags.DisplayName n] w2 cl Hc1)
      as L.
    rewrite Hset in L. exact L. }
  assert (Hw2 : log w2 = log w ++ [Query mkcalendar (Some path)
                  (Some (Calendar.mkcalendar_body (Some n) sccs)) 0]).
  { rewrite (query_outcome env c1 _ 0 mkcalendar (Some path) (Some 201%Z)
               _ cl Hc1) in Hmk.
    cbv beta iota zeta in Hmk.
    assert (Hl : log (snd (settled_id env id_ w)) = log w)
      by (destruct id_; reflexivity).
    inversion Hmk as [[Hr Hw]]. cbn [log logged]. rewrite Hl. reflexivity. }
  subst outcome. cbv zeta in E. rewrite E.
  cbn [fst snd log logged]. split; [reflexivity|]. split.
  - rewrite Hw3, Hw2. rewrite <- !app_assoc. reflexivity.
  - intros H. subst c1 path idv. rewrite H. reflexivity.
Qed.
End Rollback.

(** C7 on an example: the display name is refused, the delete is carried
    out. *)
Lemma failed_display_name_rolls_back_and_reraises_witness :
  fst (Calendar._create Fixture.refusing (Some "Work") (Some "c1") None
         (Fixture.new_calendar, Fixture.w0))
  = Raise (PropsetError "denied").
Proof.
  edestruct (failed_display_name_rolls_back_and_reraises Fixture.refusing
               Fixture.new_calendar Fixture.w0 "Work" (Some "c1") None
               Fixture.home "http://cal.example.com/home/" the_client)
    as (_ & _ & H).
  - reflexivity.
  - reflexivity.
  - reflexivity.
  - reflexivity.
  - vm_compute. reflexivity.
  - vm_compute. reflexivity.
  - apply H. reflexivity.
Defined.

(** C7 as stated fails: the server creates the collection, answers the
    PROPPATCH with a 403 status line (PropsetError) and answers the DELETE
    of the rollback with 500.  The DELETE is issued against the created
    URL, but the exception that leaves [_create] is the DeleteError of the
    rollback, not the PropsetError. *)
Lemma failed_rollback_masks_the_propset_error :
  let c1 := DAVObject.set_url (U := SimpleUrl.lib)
              (Some "http://cal.example.com/home/c1") Fixture.new_calendar in
  let outcome := Calendar._create Fixture.stubborn (Some "Work") (Some "c1") None
                   (Fixture.new_calendar, Fixture.w0) in
  (exists w2 w3,
      log w2 = removelast (log w3)
      /\ DAVObject.set_properties Fixture.stubborn c1
           [valued Tags.DisplayName "Work"] w2
         = (Raise (PropsetError "denied"), w3)
      /\ log (snd (snd outcome))
         = log w3 ++ [Delete (U := SimpleUrl.lib) "http://cal.example.com/home/c1"])
  /\ fst outcome = Raise (DeleteError "busy")
  /\ fst outcome <> Raise (PropsetError "denied").
Proof.
  split; [|split].
  - exists (logged (Query (U := SimpleUrl.lib) mkcalendar
                      (Some "http://cal.example.com/home/c1")
                      (Some (Calendar.mkcalendar_body (Some "Work") None)) 0)
              Fixture.w0).
    eexists. split; [|split].
    2: vm_compute; reflexivity.
    + vm_compute. reflexivity.
    + vm_compute. reflexivity.
  - vm_compute. reflexivity.
  - vm_compute. discriminate.
Qed.

(* ================================================================== *)
(** * Further properties of the code *)

(** ** The query primitive, delete and set_properties *)

Section Primitives.
Context `{U : UrlLib}.
Variable env : Env.

(** X1: on an object with a client, [_query] issues exactly one request;
    it returns the answer only when the status is not 404, is below 400 and
    equals the expected status when one was given; a 404 raises
    NotFoundError whatever the verb, and any other refused status raises
    the error of the verb. *)
Theorem query_returns_only_acceptable_answers :
  forall (self : DAVObject.t) (root : option ET.xml) (depth : Z)
         (m : query_method) (url_ : option URL) (expected : option Z)
         (w : World) (cl : client_ref),
    DAVObject.client self = Some cl ->
    let req := Query m (match url_ with
                        | None => DAVObject.url self
                        | Some u => Some u
                        end) root depth in
    let r := server env (log w ++ [req]) in
    let outcome := DAVObject._query env self root depth m url_ expected w in
    snd outcome = logged req w
    /\ (acceptable expected r = true -> fst outcome = Ok r)
    /\ (status r = 404%Z -> fst outcome = Raise (NotFoundError (raw r)))
    /\ (acceptable expected r = false -> status r <> 404%Z ->
        fst outcome = Raise (exception_by_method m (raw r)))
    /\ (forall r', fst outcome = Ok r' ->
                   r' = r /\ status r <> 404%Z /\ (status r < 400)%Z
                   /\ forall e, expected = Some e -> status r = e).
Proof.
  intros self root depth m url_ expected w cl Hc req r outcome.
  subst outcome.
  rewrite (query_outcome env self root depth m url_ expected w cl Hc).
  cbv zeta. fold req. fold r. cbn [fst snd]. unfold acceptable.
  split; [reflexivity|].
  destruct (status r =? 404)%Z eqn:E404; cbn [negb andb].
  - apply Z.eqb_eq in E404. repeat split; try discriminate; try congruence.
  - apply Z.eqb_neq in E404.
    destruct (match expected with
              | Some e => negb (status r =? e)%Z
              | None => false
              end || (400 <=? status r)%Z) eqn:Ebad; cbn [negb].
    + repeat split; try discriminate; try congruence.
    + apply orb_false_iff in Ebad as [Eexp E400].
      apply Z.leb_gt in E400.
      repeat split; try discriminate; try congruence.
      intros e ->. apply negb_false_iff in Eexp. now apply Z.eqb_eq in Eexp.
Qed.

(** X2: [delete] on an object without a URL does nothing; on an object with
    a URL and a client it issues one DELETE of that URL, returns normally
    when the answer is 200, 204 or 404 and raises DeleteError with the raw
    answer otherwise. *)
Theorem delete_tolerates_missing_resource :
  forall (self : DAVObject.t) (w : World),
    (DAVObject.url self = None -> DAVObject.delete env self w = (Ok tt, w))
    /\ (forall u cl,
          DAVObject.url self = Some u -> DAVObject.client self = Some cl ->
          let r := server env (log w ++ [Delete u]) in
          DAVObject.delete env self w
          = (if delete_accepted r then Ok tt else Raise (DeleteError (raw r)),
             logged (Delete u) w)).
Proof.
  intros self w. split.
  - intros H. unfold DAVObject.delete. rewrite H. reflexivity.
  - intros u cl Hu Hc r. unfold DAVObject.delete. rewrite Hu, Hc.
    run_monad. unfold client_call. cbn [log logged]. fold r.
    unfold delete_accepted.
    destruct ((status r =? 200)%Z || (status r =? 204)%Z || (status r =? 404)%Z);
      reflexivity.
Qed.

(** The loop over the status lines succeeds exactly when every line reads
    success. *)
Lemma check_statuses_spec (raw_ : string) (statuses : list ET.xml) :
  Forall (fun s => ET.text s <> None) statuses ->
  DAVObject.check_statuses raw_ statuses
  = if forallb status_ok statuses then Ok tt else Raise (PropsetError raw_).
Proof.
  induction 1 as [|s rest Hs _ IH]; [reflexivity|].
  cbn [DAVObject.check_statuses forallb]. unfold status_ok at 1.
  destruct (ET.text s) as [line|]; [|congruence].
  destruct (PyStr.endswith line "200 OK"); cbn [negb andb]; [exact IH|reflexivity].
Qed.

(** X3: once the PROPPATCH has been answered with a parsed body whose
    status elements all have a text, [set_properties] returns [self] when
    every status line ends in 200 OK (in particular when there is no status
    line at all) and raises PropsetError with the raw answer as soon as one
    does not. *)
Theorem set_properties_needs_every_status_ok :
  forall (self : DAVObject.t) (props : list ET.xml) (w w1 : World)
         (r : response) (root : ET.xml),
    DAVObject._query env self (Some (propertyupdate_of props)) 0 proppatch
      None None w = (Ok r, w1) ->
    tree r = Some root ->
    Forall (fun s => ET.text s <> None) (ET.findall root Tags.Status) ->
    DAVObject.set_properties env self props w
    = (if forallb status_ok (ET.findall root Tags.Status)
       then Ok self else Raise (PropsetError (raw r)), w1).
Proof.
  intros self props w w1 r root Hq Ht Hall.
  unfold DAVObject.set_properties.
  fold (propertyupdate_of props).
  change (ET.add (elem Tags.PropertyUpdate)
            [ET.add (elem Tags.Set_) [ET.add (elem Tags.Prop_) props]])
    with (propertyupdate_of props).
  rewrite (bind_ok _ _ _ _ _ Hq).
  rewrite Ht. run_monad. rewrite (check_statuses_spec _ _ Hall).
  destruct (forallb status_ok (ET.findall root Tags.Status)); reflexivity.
Qed.
End Primitives.

(** X1 on an example: a PROPFIND of the home set. *)
Lemma query_returns_only_acceptable_answers_witness :
  exists r,
    fst (DAVObject._query Fixture.friendly Fixture.home None 0 propfind None None
           Fixture.w0) = Ok r
    /\ status r = 207%Z.
Proof.
  destruct (query_returns_only_acceptable_answers Fixture.friendly Fixture.home
              None 0 propfind None None Fixture.w0 the_client eq_refl)
    as (_ & H & _).
  eexists. split; [apply H; reflexivity | reflexivity].
Defined.

(** X2 on an example: the home set is deleted on a server that answers 204. *)
Lemma delete_tolerates_missing_resource_witness :
  DAVObject.delete Fixture.friendly Fixture.home Fixture.w0
  = (Ok tt, logged (Delete (U := SimpleUrl.lib) "http://cal.example.com/home/")
              Fixture.w0).
Proof.
  apply (proj2 (delete_tolerates_missing_resource Fixture.friendly Fixture.home
                  Fixture.w0)
           "http://cal.example.com/home/" the_client eq_refl eq_refl).
Defined.

(** X3 on an example: the server refuses the display name with a 403 line. *)
Lemma set_properties_needs_every_status_ok_witness :
  fst (DAVObject.set_properties Fixture.refusing Fixture.work
         [valued Tags.DisplayName "Work"] Fixture.w0)
  = Raise (PropsetError "denied").
Proof.
  erewrite (set_properties_needs_every_status_ok Fixture.refusing Fixture.work
              [valued Tags.DisplayName "Work"] Fixture.w0); cycle 1.
  - vm_compute. reflexivity.
  - reflexivity.
  - repeat constructor; discriminate.
  - reflexivity.
Defined.

(* ------------------------------------------------------------------ *)
(** ** More on parsing a multistatus response *)

Lemma string_get_set {V : Type} (k k0 : string) (v : V) (d : @Dict.t string V) :
  Dict.get String.eqb k (Dict.set String.eqb k0 v d)
  = if String.eqb k k0 then Some v else Dict.get String.eqb k d.
Proof.
  induction d as [|[k' v'] d IH]; simpl.
  - reflexivity.
  - destruct (String.eqb k0 k') eqn:E0; simpl.
    + apply String.eqb_eq in E0. subst k'.
      destruct (String.eqb k k0); reflexivity.
    + rewrite IH.
      destruct (String.eqb k k') eqn:E1; [|reflexivity].
      destruct (String.eqb k k0) eqn:E2; [|reflexivity].
      apply String.eqb_eq in E1, E2. subst.
      rewrite String.eqb_refl in E0. discriminate.
Qed.

(** Processing a list of entries in two parts. *)
Lemma handle_responses_app (raw_ : string) (props : list ET.xml)
    (type : option string) (what : ET.what_attr) (rs1 rs2 : list ET.xml) :
  forall acc,
    DAVObject.handle_responses raw_ (rs1 ++ rs2) props type what acc
    = match DAVObject.handle_responses raw_ rs1 props type what acc with
      | Ok m => DAVObject.handle_responses raw_ rs2 props type what m
      | Raise e => Raise e
      end.
Proof.
  induction rs1 as [|r rs1 IH]; intros acc; [reflexivity|].
  cbn [app DAVObject.handle_responses].
  destruct (ET.find r Tags.Status) as [st|]; [|reflexivity].
  destruct (ET.text st) as [line|]; [|reflexivity].
  destruct (PyStr.endswith line "200 OK"); cbn [negb].
  - destruct (ET.find r Tags.Href) as [h|]; [|reflexivity].
    destruct (DAVObject.handle_props r props type what Dict.empty);
      [apply IH | reflexivity].
  - destruct (PyStr.endswith line "404 Not Found"); [apply IH | reflexivity].
Qed.

Lemma handle_responses_404 (raw_ : string) (props : list ET.xml)
    (type : option string) (what : ET.what_attr) (r : ET.xml)
    (rs : list ET.xml) (acc : DAVObject.propmap) :
  classify r = status_404 ->
  DAVObject.handle_responses raw_ (r :: rs) props type what acc
  = DAVObject.handle_responses raw_ rs props type what acc.
Proof.
  unfold classify, status_line. cbn [DAVObject.handle_responses].
  destruct (ET.find r Tags.Status) as [st|]; [|discriminate].
  destruct (ET.text st) as [line|]; [|discriminate].
  destruct (PyStr.endswith line "200 OK"); [discriminate|].
  destruct (PyStr.endswith line "404 Not Found"); [reflexivity|discriminate].
Qed.

(** X4: an entry whose status line ends in 404 Not Found leaves no trace:
    the loop of the handler gives the same outcome, result or exception,
    with the entry as without it, wherever the entry stands. *)
Theorem not_found_entries_leave_no_trace :
  forall (raw_ : string) (props : list ET.xml) (type : option string)
         (what : ET.what_attr) (rs1 rs2 : list ET.xml) (r : ET.xml)
         (acc : DAVObject.propmap),
    classify r = status_404 ->
    DAVObject.handle_responses raw_ (rs1 ++ r :: rs2) props type what acc
    = DAVObject.handle_responses raw_ (rs1 ++ rs2) props type what acc.
Proof.
  intros raw_ props type what rs1 rs2 r acc H.
  rewrite !handle_responses_app.
  destruct (DAVObject.handle_responses raw_ rs1 props type what acc);
    [|reflexivity].
  apply handle_responses_404. exact H.
Qed.

(** What the inner loop stores: a value under the tag of each requested
    property, and nothing under other tags beyond what was there. *)
Lemma handle_props_tags (r : ET.xml) (type : option string)
    (what : ET.what_attr) (props : list ET.xml) :
  forall d d',
    DAVObject.handle_props r props type what d = Ok d' ->
    forall t,
      (Dict.get String.eqb t d' <> None
       <-> Dict.get String.eqb t d <> None \/ In t (map ET.tag props)).
Proof.
  induction props as [|p ps IH]; intros d d' H t.
  - inversion H; subst. simpl. tauto.
  - cbn [DAVObject.handle_props] in H.
    destruct (ET.find r (ET.tag p)) as [t_|]; [|discriminate].
    rewrite (IH _ _ H t), string_get_set. cbn [map In].
    destruct (String.eqb t (ET.tag p)) eqn:E.
    + apply String.eqb_eq in E. subst. split; [intros _|intros _; left; discriminate].
      right. now left.
    + apply String.eqb_neq in E. split.
      * intros [H1|H1]; [now left|]. right. now right.
      * intros [H1|[H1|H1]]; [now left| congruence | now right].
Qed.

(** The invariant of the outer loop: the keys of every stored entry are
    the requested tags. *)
Lemma handle_responses_tags (raw_ : string) (props : list ET.xml)
    (type : option string) (what : ET.what_attr) (rs : list ET.xml) :
  forall acc properties,
    holds_requested_tags props acc ->
    DAVObject.handle_responses raw_ rs props type what acc = Ok properties ->
    holds_requested_tags props properties.
Proof.
  induction rs as [|r rs IH]; intros acc properties Hacc; simpl.
  - intros H. inversion H; subst. exact Hacc.
  - destruct (ET.find r Tags.Status) as [st|]; [|discriminate].
    destruct (ET.text st) as [line|]; [|discriminate].
    destruct (PyStr.endswith line "200 OK"); simpl.
    + destruct (ET.find r Tags.Href) as [h|]; [|discriminate].
      destruct (DAVObject.handle_props r props type what Dict.empty)
        as [d|] eqn:Ed; [|discriminate].
      apply IH. intros k pv. rewrite dict_get_set.
      destruct (okey_eqb k (ET.text h)); [|apply Hacc].
      intros H t. inversion H; subst.
      rewrite (handle_props_tags _ _ _ _ _ _ Ed t). simpl. tauto.
    + destruct (PyStr.endswith line "404 Not Found"); [|discriminate].
      apply IH. exact Hacc.
Qed.

(** X5: in a result of the handler, the entry stored for a path holds a
    value (possibly None) under the tag of every requested property and
    under no other tag; a lookup of a requested property in it cannot
    raise KeyError. *)
Theorem stored_entries_hold_the_requested_tags :
  forall (resp : response) (props : list ET.xml) (type : option string)
         (what : ET.what_attr) (properties : DAVObject.propmap)
         (k : option string) (pv : DAVObject.propdict),
    DAVObject._handle_prop_response resp props type what = Ok properties ->
    Dict.get okey_eqb k properties = Some pv ->
    forall t, Dict.get String.eqb t pv <> None <-> In t (map ET.tag props).
Proof.
  intros resp props type what properties k pv H Hk.
  unfold DAVObject._handle_prop_response in H.
  destruct (tree resp); [|discriminate].
  apply (handle_responses_tags _ _ _ _ _ Dict.empty _) in H.
  - exact (H k pv Hk).
  - intros k' pv' H'. discriminate.
Qed.

(** X6: entries are not merged: when the last entry of the body has a
    200 OK status line, the result holds under its href exactly the
    properties read from that entry, whatever earlier entries stored under
    the same href. *)
Theorem last_entry_for_a_path_wins :
  forall (raw_ : string) (props : list ET.xml) (type : option string)
         (what : ET.what_attr) (rs : list ET.xml) (r : ET.xml)
         (acc properties : DAVObject.propmap),
    classify r = status_200 ->
    DAVObject.handle_responses raw_ (rs ++ [r]) props type what acc
    = Ok properties ->
    exists d,
      DAVObject.handle_props r props type what Dict.empty = Ok d
      /\ Dict.get okey_eqb (entry_href r) properties = Some d.
Proof.
  intros raw_ props type what rs r acc properties Hc H.
  rewrite handle_responses_app in H.
  destruct (DAVObject.handle_responses raw_ rs props type what acc) as [m|];
    [|discriminate].
  unfold classify, status_line in Hc. unfold entry_href.
  cbn [DAVObject.handle_responses] in H.
  destruct (ET.find r Tags.Status) as [st|]; [|discriminate].
  destruct (ET.text st) as [line|]; [|discriminate].
  destruct (PyStr.endswith line "200 OK"); cbn [negb] in H.
  - destruct (ET.find r Tags.Href) as [h|]; [|discriminate].
    destruct (DAVObject.handle_props r props type what Dict.empty) as [d|];
      [|discriminate].
    inversion H; subst. exists d. split; [reflexivity|].
    rewrite dict_get_set, okey_eqb_refl. reflexivity.
  - destruct (PyStr.endswith line "404 Not Found"); discriminate.
Qed.

(** X4 on an example: the listing with and without its 404 entry. *)
Lemma not_found_entries_leave_no_trace_witness :
  DAVObject.handle_responses "listing"
    [Fixture.home_entry; Fixture.gone_entry; Fixture.work_entry]
    [elem Tags.ResourceType] None ET.what_tag Dict.empty
  = DAVObject.handle_responses "listing"
      [Fixture.home_entry; Fixture.work_entry]
      [elem Tags.ResourceType] None ET.what_tag Dict.empty.
Proof.
  apply (not_found_entries_leave_no_trace "listing" [elem Tags.ResourceType]
           None ET.what_tag [Fixture.home_entry] [Fixture.work_entry]
           Fixture.gone_entry Dict.empty).
  reflexivity.
Defined.

(** X5 on an example: the entry stored for the calendar of the listing. *)
Lemma stored_entries_hold_the_requested_tags_witness :
  exists properties pv,
    DAVObject._handle_prop_response Fixture.listing [elem Tags.ResourceType]
      None ET.what_tag = Ok properties
    /\ Dict.get okey_eqb (Some "/home/work/") properties = Some pv
    /\ Dict.get String.eqb Tags.ResourceType pv <> None.
Proof.
  assert (E : exists properties,
             DAVObject._handle_prop_response Fixture.listing
               [elem Tags.ResourceType] None ET.what_tag = Ok properties
             /\ exists pv,
                 Dict.get okey_eqb (Some "/home/work/") properties = Some pv).
  { vm_compute. eexists. split; [reflexivity|]. eexists. reflexivity. }
  destruct E as (properties & Hp & pv & Hpv).
  exists properties, pv. split; [exact Hp|]. split; [exact Hpv|].
  apply (proj2 (stored_entries_hold_the_requested_tags Fixture.listing
                  [elem Tags.ResourceType] None ET.what_tag properties
                  (Some "/home/work/") pv Hp Hpv Tags.ResourceType)).
  left. reflexivity.
Defined.

(** X6 on an example: the calendar entry comes last in the listing. *)
Lemma last_entry_for_a_path_wins_witness :
  exists properties d,
    DAVObject.handle_responses "listing"
      ([Fixture.home_entry; Fixture.gone_entry] ++ [Fixture.work_entry])
      [elem Tags.ResourceType] None ET.what_tag Dict.empty = Ok properties
    /\ DAVObject.handle_props Fixture.work_entry [elem Tags.ResourceType]
         None ET.what_tag Dict.empty = Ok d
    /\ Dict.get okey_eqb (Some "/home/work/") properties = Some d.
Proof.
  assert (E : exists properties,
             DAVObject.handle_responses "listing"
               ([Fixture.home_entry; Fixture.gone_entry] ++ [Fixture.work_entry])
               [elem Tags.ResourceType] None ET.what_tag Dict.empty
             = Ok properties).
  { vm_compute. eexists. reflexivity. }
  destruct E as (properties & Hp).
  destruct (last_entry_for_a_path_wins "listing" [elem Tags.ResourceType]
              None ET.what_tag [Fixture.home_entry; Fixture.gone_entry]
              Fixture.work_entry Dict.empty properties eq_refl Hp)
    as (d & Hd & Hg).
  exists properties, d. split; [exact Hp|]. split; [exact Hd | exact Hg].
Defined.

(* ------------------------------------------------------------------ *)
(** ** The pattern that reads an id off a path *)

Lemma group2_at_no_slash (s g : string) :
  Re.group2_at s = Some g -> has_slash g = false.
Proof.
  revert g. induction s as [|c rest IH]; intros g; cbn [Re.group2_at].
  - discriminate.
  - destruct (Ascii.eqb c "/") eqn:Ec.
    + destruct (Re.dot_ics (String c rest)); [|discriminate].
      intros H. inversion H. reflexivity.
    + destruct (Re.group2_at rest) as [g'|].
      * intros H. inversion H; subst. cbn [has_slash].
        rewrite Ec. apply (IH g' eq_refl).
      * destruct (Re.dot_ics (String c rest)); [|discriminate].
        intros H. inversion H. reflexivity.
Qed.

(** X7: whatever the path, the id the pattern reads off it has no slash in
    it. *)
Theorem id_from_path_has_no_slash :
  forall (path g : string),
    Re.search_ics_group2 path = Some g -> has_slash g = false.
Proof.
  unfold Re.search_ics_group2. generalize true as b.
  intros b path. revert b.
  induction path as [|c rest IH]; intros b g; cbn [Re.search_from].
  - unfold Re.match_here. destruct b; cbn [Re.group2_at]; discriminate.
  - destruct (Re.match_here b (String c rest)) as [g'|] eqn:Em.
    + intros H. inversion H; subst.
      unfold Re.match_here in Em.
      destruct (Ascii.eqb c "/").
      * destruct (Re.group2_at rest) as [g0|] eqn:E0.
        -- inversion Em; subst. apply (group2_at_no_slash _ _ E0).
        -- destruct b; [|discriminate]. apply (group2_at_no_slash _ _ Em).
      * destruct b; [|discriminate]. apply (group2_at_no_slash _ _ Em).
    + apply IH.
Qed.

Lemma group2_at_stem (x : string) :
  has_slash x = false -> Re.group2_at (x ++ ".ics") <> None.
Proof.
  induction x as [|c x IH]; intros H.
  - vm_compute. discriminate.
  - cbn [has_slash] in H. apply orb_false_iff in H as [Hc Hx].
    cbn [append Re.group2_at]. rewrite Hc.
    destruct (Re.group2_at (x ++ ".ics")); [discriminate|].
    exfalso. apply (IH Hx). reflexivity.
Qed.

Lemma search_from_finds (q : string) :
  forall b, b = true \/ has_slash q = true ->
            Re.search_from b (q ++ ".ics") <> None.
Proof.
  induction q as [|c q IH]; intros b Hb.
  - destruct Hb as [->|Hb]; [|discriminate]. vm_compute. discriminate.
  - cbn [append Re.search_from].
    destruct (Re.match_here b (String c (q ++ ".ics"))) eqn:Em; [discriminate|].
    apply IH. right.
    unfold Re.match_here in Em.
    destruct (has_slash q) eqn:Hq; [reflexivity|]. exfalso.
    destruct (Ascii.eqb c "/") eqn:Ec.
    + destruct (Re.group2_at (q ++ ".ics")) eqn:E; [discriminate|].
      apply (group2_at_stem q Hq E).
    + destruct Hb as [->|Hb].
      * apply (group2_at_stem (String c q)); [|exact Em].
        cbn [has_slash]. rewrite Ec, Hq. reflexivity.
      * cbn [has_slash] in Hb. rewrite Ec, Hq in Hb. discriminate.
Qed.

Section IdFromPath.
Context `{U : UrlLib} `{V : VObjectLib}.

(** X8: on every path that ends in .ics the pattern finds a match: when no
    id is given, the first statement of [_create] then yields an id and
    never fails on a missing match. *)
Theorem id_pattern_matches_every_ics_path :
  forall (r : CalendarObjectResource.t) (path : string),
    PyStr.endswith path ".ics" = true ->
    exists g,
      Re.search_ics_group2 path = Some g
      /\ CalendarObjectResource.derive_id r None (Some path) = Ok (Some g).
Proof.
  intros r path H. unfold CalendarObjectResource.derive_id. rewrite H.
  apply PyStrFacts.endswith_spec in H as [q ->].
  unfold Re.search_ics_group2.
  destruct (Re.search_from true (q ++ ".ics")) as [g|] eqn:E.
  - exists g. split; reflexivity.
  - exfalso. apply (search_from_finds q true (or_introl eq_refl) E).
Qed.
End IdFromPath.

(** X7 on an example: the id read off /topics/e1.ics. *)
Lemma id_from_path_has_no_slash_witness : has_slash "to" = false.
Proof.
  apply (id_from_path_has_no_slash "/topics/e1.ics" "to"). reflexivity.
Defined.

(** X8 on an example: the event bound inside the calendar topics. *)
Lemma id_pattern_matches_every_ics_path_witness :
  exists g,
    Re.search_ics_group2 "/topics/e1.ics" = Some g
    /\ CalendarObjectResource.derive_id Fixture.topics_event None
         (Some "/topics/e1.ics") = Ok (Some g).
Proof.
  apply (id_pattern_matches_every_ics_path Fixture.topics_event "/topics/e1.ics").
  reflexivity.
Defined.

(* ------------------------------------------------------------------ *)
(** ** More on calendar objects *)

Section CalendarObjects.
Context `{U : UrlLib} `{V : VObjectLib}.
Variable env : Env.

(** [save] on an object with an instance is [_create] on its serialization,
    its id and the path of its URL. *)
Lemma save_with_instance (r : CalendarObjectResource.t) (w : World)
    (inst : vinstance) :
  CalendarObjectResource._instance r = Some inst ->
  CalendarObjectResource.save env (r, w)
  = match CalendarObjectResource._create env (serialize inst)
            (DAVObject.id (CalendarObjectResource.base r)) (save_path r) (r, w)
    with
    | (Ok _, s) => (Ok (fst s), s)
    | (Raise e, s) => (Raise e, s)
    end.
Proof.
  intros H. unfold CalendarObjectResource.save, save_path.
  unfold bind at 1 2. unfold get_self at 1. cbn [fst snd]. rewrite H.
  destruct (CalendarObjectResource._create env _ _ _ (r, w)) as [[[]|e] s];
    reflexivity.
Qed.

(** X9: [_create] assigns the URL and the id only at its very end: when it
    raises, the object is as it was, and at most one request, the PUT of the
    data, has been issued. *)
Theorem failed_create_leaves_the_object_unchanged :
  forall (r r' : CalendarObjectResource.t) (w w' : World) (data : string)
         (id_ path : option string) (e : exn),
    CalendarObjectResource._create env data id_ path (r, w)
    = (Raise e, (r', w')) ->
    r' = r
    /\ (w' = w
        \/ exists target,
             w' = logged (Put target data CalendarObjectResource.content_type) w).
Proof.
  intros r r' w w' data id_ path e H.
  unfold CalendarObjectResource._create in H.
  run_monad_in H.
  destruct (CalendarObjectResource.derive_id r id_ path) as [idv|e0];
    [|inversion H; auto].
  destruct (CalendarObjectResource.derive_path idv path) as [pathv|e0];
    [|inversion H; auto].
  destruct (DAVObject.parent (CalendarObjectResource.base r)) as [p|];
    [|inversion H; auto].
  destruct (DAVObject.url p) as [pu|]; [|inversion H; auto].
  destruct (DAVObject.client (CalendarObjectResource.base r)) as [cl|];
    [|inversion H; auto].
  unfold client_call in H.
  destruct (CalendarObjectResource.put_result _ _) as [np|e0];
    inversion H; subst.
  split; [reflexivity|]. right. eexists. reflexivity.
Qed.

(** X10: without an id and without a path, on an instance that has none of
    the components vevent, vtodo, vjournal and vfreebusy, [_create] raises
    TypeError before any request is issued. *)
Theorem create_without_component_raises_before_any_request :
  forall (r : CalendarObjectResource.t) (w : World) (data : string),
    (forall inst n,
        CalendarObjectResource._instance r = Some inst ->
        In n component_names -> component inst n = None) ->
    CalendarObjectResource._create env data None None (r, w)
    = (Raise TypeError, (r, w)).
Proof.
  intros r w data H.
  unfold CalendarObjectResource._create. run_monad.
  assert (E : CalendarObjectResource.derive_id r None None = Ok None).
  { unfold CalendarObjectResource.derive_id,
      CalendarObjectResource.get_instance.
    destruct (CalendarObjectResource._instance r) as [inst|]; [|reflexivity].
    cbn [CalendarObjectResource.uid_of_instance].
    rewrite !(H inst _ eq_refl) by (unfold component_names; simpl; tauto).
    reflexivity. }
  rewrite E. reflexivity.
Qed.

(** X11: [set_data] stores the text before it parses it: when the text
    does not parse, the exception leaves the object with the new text and
    the instance it had before. *)
Theorem failed_set_data_keeps_the_old_instance :
  forall (r : CalendarObjectResource.t) (w : World) (data : string),
    readOne (to_unicode (vcal_fix data)) = None ->
    CalendarObjectResource.set_data data (r, w)
    = (Raise ParseError,
       (CalendarObjectResource.mk (CalendarObjectResource.base r)
          (CalendarObjectResource._instance r) (Some (vcal_fix data)), w)).
Proof.
  intros r w data H. unfold CalendarObjectResource.set_data. run_monad.
  cbn [CalendarObjectResource._data CalendarObjectResource.set__data].
  rewrite H. reflexivity.
Qed.

(** X12: [add_event] with a text that parses to an instance whose vevent
    has the uid [uid], on a calendar with a URL and a client: one PUT of
    the serialized instance goes to [uid].ics joined to the calendar's URL
    and, when it is answered with 201 or 204, the returned Event has that
    URL, the id [uid], the fixed text and the instance. *)
Theorem add_event_puts_uid_ics_under_the_calendar :
  forall (self : Calendar.t) (w : World) (ical uid : string)
         (inst : vinstance) (c : vcomponent) (u : URL) (cl : client_ref),
    readOne (to_unicode (vcal_fix ical)) = Some inst ->
    component inst "vevent" = Some c ->
    uid_value c = Some uid ->
    DAVObject.url self = Some u ->
    DAVObject.client self = Some cl ->
    let target := url_join u (UStr (uid ++ ".ics")) in
    let req := Put target (serialize inst) CalendarObjectResource.content_type in
    let resp := server env (log w ++ [req]) in
    status resp = 201%Z \/ status resp = 204%Z ->
    CalendarMethods.add_event env self ical w
    = (Ok (created (fresh_event self ical inst) (Some target) (Some uid)),
       logged req w).
Proof.
  intros self w ical uid inst c u cl Hp Hc Hu Hurl Hcl target req resp Hst.
  unfold CalendarMethods.add_event.
  assert (Hinit : CalendarObjectResource.init (DAVObject.client self) UNone
                    (Some ical) (Some self) None w
                  = (Ok (fresh_event self ical inst), w)).
  { unfold CalendarObjectResource.init, DAVObject.init,
      CalendarObjectResource.set_data, fresh_event.
    rewrite Hcl. run_monad.
    cbn [pyurl_bool objectify CalendarObjectResource._data
         CalendarObjectResource.set__data].
    rewrite Hp. reflexivity. }
  rewrite (bind_ok _ _ _ _ _ Hinit).
  unfold call_on.
  rewrite (save_with_instance (fresh_event self ical inst) w inst eq_refl).
  assert (Hid : CalendarObjectResource.derive_id (fresh_event self ical inst)
                  None None = Ok (Some uid)).
  { unfold CalendarObjectResource.derive_id,
      CalendarObjectResource.get_instance, fresh_event.
    cbn [CalendarObjectResource._instance
         CalendarObjectResource.uid_of_instance].
    rewrite Hc, Hu. reflexivity. }
  change (DAVObject.id (CalendarObjectResource.base (fresh_event self ical inst)))
    with (@None string).
  change (save_path (fresh_event self ical inst)) with (@None string).
  rewrite (create_outcome env (fresh_event self ical inst) w (serialize inst)
             None None (Some uid) (uid ++ ".ics") self u cl
             Hid eq_refl eq_refl Hurl Hcl).
  fold target. fold req. fold resp.
  unfold CalendarObjectResource.put_result.
  destruct Hst as [Hst|Hst]; rewrite Hst; reflexivity.
Qed.
End CalendarObjects.

(** X9 on an example: the PUT is refused. *)
Lemma failed_create_leaves_the_object_unchanged_witness :
  exists e r' w',
    CalendarObjectResource._create Fixture.stubborn "vevent:abc123" None
      (Some "/topics/e1.ics") (Fixture.topics_event, Fixture.w0)
    = (Raise e, (r', w'))
    /\ r' = Fixture.topics_event.
Proof.
  assert (E : exists e r' w',
             CalendarObjectResource._create Fixture.stubborn "vevent:abc123"
               None (Some "/topics/e1.ics") (Fixture.topics_event, Fixture.w0)
             = (Raise e, (r', w'))).
  { vm_compute. eexists. eexists. eexists. reflexivity. }
  destruct E as (e & r' & w' & E).
  exists e, r', w'. split; [exact E|].
  apply (failed_create_leaves_the_object_unchanged Fixture.stubborn
           Fixture.topics_event r' Fixture.w0 w' "vevent:abc123" None
           (Some "/topics/e1.ics") e E).
Defined.

(** X10 on an example: an object that holds a time zone only. *)
Lemma create_without_component_raises_before_any_request_witness :
  CalendarObjectResource._create Fixture.friendly "vtimezone:tz1" None None
    (Fixture.timezone_only, Fixture.w0)
  = (Raise TypeError, (Fixture.timezone_only, Fixture.w0)).
Proof.
  apply (create_without_component_raises_before_any_request Fixture.friendly
           Fixture.timezone_only Fixture.w0 "vtimezone:tz1").
  intros inst n H Hn. inversion H; subst.
  destruct Hn as [<-|[<-|[<-|[<-|[]]]]]; reflexivity.
Defined.

(** X11 on an example: a text without a colon does not parse. *)
Lemma failed_set_data_keeps_the_old_instance_witness :
  CalendarObjectResource.set_data (U := SimpleUrl.lib) (V := SimpleCal.lib)
    "garbage" (Fixture.topics_event, Fixture.w0)
  = (Raise ParseError,
     (CalendarObjectResource.mk (U := SimpleUrl.lib) (V := SimpleCal.lib)
        (CalendarObjectResource.base Fixture.topics_event)
        (Some ("vevent", "abc123")) (Some "garbage"), Fixture.w0)).
Proof.
  apply (failed_set_data_keeps_the_old_instance (U := SimpleUrl.lib)
           Fixture.topics_event Fixture.w0 "garbage").
  reflexivity.
Defined.

(** X12 on an example: the event abc123 is added to the calendar Work. *)
Lemma add_event_puts_uid_ics_under_the_calendar_witness :
  exists e w',
    CalendarMethods.add_event (V := SimpleCal.lib) Fixture.friendly
      Fixture.work "vevent:abc123" Fixture.w0 = (Ok e, w')
    /\ DAVObject.id (CalendarObjectResource.base e) = Some "abc123"
    /\ DAVObject.url (CalendarObjectResource.base e)
       = Some "http://cal.example.com/home/work/abc123.ics".
Proof.
  eexists. eexists. split.
  - apply (add_event_puts_uid_ics_under_the_calendar (V := SimpleCal.lib)
             Fixture.friendly Fixture.work Fixture.w0 "vevent:abc123" "abc123"
             ("vevent", "abc123") "abc123" "http://cal.example.com/home/work/"
             the_client eq_refl eq_refl eq_refl eq_refl eq_refl).
    left. reflexivity.
  - split; reflexivity.
Defined.

(* ------------------------------------------------------------------ *)
(** ** More on creating a calendar collection *)

Section CalendarCreate.
Context `{U : UrlLib}.
Variable env : Env.

(** [save] on a calendar that has a URL does nothing. *)
Lemma save_bound_calendar (c : Calendar.t) (w : World) (u : URL) :
  DAVObject.url c = Some u -> Calendar.save env (c, w) = (Ok c, (c, w)).
Proof.
  intros H. unfold Calendar.save. run_monad. rewrite H. reflexivity.
Qed.

(** [_create] up to the answer to MKCALENDAR. *)
Lemma create_until_mkcalendar (c : Calendar.t) (w : World)
    (name_ id_ : option string) (sccs : option (list string))
    (p : DAVObject.t) (pu : URL) (cl : client_ref) :
  DAVObject.parent c = Some p ->
  DAVObject.url p = Some pu ->
  DAVObject.client c = Some cl ->
  let idv := fst (settled_id env id_ w) in
  let w0 := snd (settled_id env id_ w) in
  let path := url_join pu (UStr idv) in
  let c1 := DAVObject.set_url (Some path) (DAVObject.set_id (Some idv) c) in
  let req := Query mkcalendar (Some path)
               (Some (Calendar.mkcalendar_body name_ sccs)) 0 in
  let resp := server env (log w0 ++ [req]) in
  (acceptable (Some 201%Z) resp = false ->
   Calendar._create env name_ id_ sccs (c, w)
   = (Raise (query_error mkcalendar resp), (c1, logged req w0)))
  /\ (acceptable (Some 201%Z) resp = true ->
      forall w2,
        (PyStr.otruthy name_ = false /\ w2 = logged req w0
         \/ PyStr.otruthy name_ = true
            /\ DAVObject.set_properties env c1 [display_name_of name_]
                 (logged req w0) = (Ok c1, w2)) ->
        let zimbra_url := url_join pu (pyurl_of_ostr name_) in
        let probe := server env (log w2 ++ [Get zimbra_url]) in
        Calendar._create env name_ id_ sccs (c, w)
        = (Ok tt,
           (if (status probe =? 404)%Z then c1
            else DAVObject.set_url (Some zimbra_url) c1,
            logged (Get zimbra_url) w2))).
Proof.
  intros Hp Hpu Hc idv w0 path c1 req resp.
  assert (Hid : (match id_ with
                 | Some i => ret i
                 | None => in_world (fresh_uuid env)
                 end) (c, w) = (Ok idv, (c, w0))).
  { subst idv w0. destruct id_; reflexivity. }
  assert (Hc1 : DAVObject.client c1 = Some cl) by exact Hc.
  assert (Hq := query_outcome env c1
                  (Some (Calendar.mkcalendar_body name_ sccs)) 0 mkcalendar
                  (Some path) (Some 201%Z) w0 cl Hc1).
  cbv beta iota zeta in Hq. fold req in Hq. fold resp in Hq.
  assert (Hstart : forall k : string -> M (Calendar.t * World) unit,
            bind (match id_ with
                  | Some i => ret i
                  | None => in_world (fresh_uuid env)
                  end) k (c, w) = k idv (c, w0)).
  { intros k. apply bind_ok. exact Hid. }
  split.
  - intros Hbad. unfold Calendar._create. rewrite Hstart. run_monad.
    change (DAVObject.parent (DAVObject.set_id (Some idv) c))
      with (DAVObject.parent c).
    rewrite Hp, Hpu. run_monad. fold path. fold c1. rewrite Hq.
    unfold acceptable in Hbad. unfold query_error.
    destruct (status resp =? 404)%Z; [reflexivity|].
    cbn [negb andb] in Hbad. apply negb_false_iff in Hbad.
    rewrite Hbad. reflexivity.
  - intros Hgood w2 Hname zimbra_url probe.
    unfold Calendar._create. rewrite Hstart. run_monad.
    change (DAVObject.parent (DAVObject.set_id (Some idv) c))
      with (DAVObject.parent c).
    rewrite Hp, Hpu. run_monad. fold path. fold c1. rewrite Hq.
    unfold acceptable in Hgood.
    apply andb_true_iff in Hgood as [H404 Hok].
    apply negb_true_iff in H404, Hok. rewrite H404, Hok.
    fold zimbra_url.
    destruct Hname as [[Hn ->]|[Hn Hset]]; rewrite Hn.
    + rewrite Hc1. unfold client_call. subst probe. cbn [log logged].
      destruct (status (server env ((log w0 ++ [req]) ++ [Get zimbra_url]))
                =? 404)%Z; reflexivity.
    + fold (display_name_of name_). rewrite Hset.
      rewrite Hc1. unfold client_call. subst probe. cbn [log logged].
      destruct (status (server env (log w2 ++ [Get zimbra_url])) =? 404)%Z;
        reflexivity.
Qed.

(** X13: when MKCALENDAR is refused, [save] on an unbound calendar raises
    (NotFoundError on 404, MkcalendarError otherwise) after this single
    request, and it leaves the calendar with the id-based URL assigned: a
    second [save] on it then issues no request and returns normally. *)
Theorem refused_mkcalendar_leaves_the_calendar_bound :
  forall (c : Calendar.t) (w : World) (p : DAVObject.t) (pu : URL)
         (cl : client_ref),
    DAVObject.url c = None ->
    DAVObject.parent c = Some p ->
    DAVObject.url p = Some pu ->
    DAVObject.client c = Some cl ->
    let idv := fst (settled_id env (DAVObject.id c) w) in
    let w0 := snd (settled_id env (DAVObject.id c) w) in
    let path := url_join pu (UStr idv) in
    let c1 := DAVObject.set_url (Some path) (DAVObject.set_id (Some idv) c) in
    let req := Query mkcalendar (Some path)
                 (Some (Calendar.mkcalendar_body (DAVObject.name c)
                          (DAVObject.extra_init_options c))) 0 in
    let resp := server env (log w0 ++ [req]) in
    acceptable (Some 201%Z) resp = false ->
    Calendar.save env (c, w)
    = (Raise (query_error mkcalendar resp), (c1, logged req w0))
    /\ forall w2, Calendar.save env (c1, w2) = (Ok c1, (c1, w2)).
Proof.
  intros c w p pu cl Hurl Hp Hpu Hc idv w0 path c1 req resp Hbad.
  split.
  - unfold Calendar.save.
    unfold bind at 1 2. unfold get_self at 1. cbn [fst snd]. rewrite Hurl.
    unfold bind at 1.
    rewrite (proj1 (create_until_mkcalendar c w (DAVObject.name c)
                      (DAVObject.id c) (DAVObject.extra_init_options c)
                      p pu cl Hp Hpu Hc) Hbad).
    reflexivity.
  - intros w2. apply (save_bound_calendar c1 w2 path). reflexivity.
Qed.

(** X14: when MKCALENDAR is answered with 201 and no display name is to be
    set (none or an empty one was given), [_create] issues exactly one more
    request, a GET of the parent's URL joined to the name, and the
    calendar's URL becomes that name-based URL unless the GET is answered
    with 404, in which case it stays the id-based URL. *)
Theorem name_based_url_is_adopted_unless_the_probe_is_404 :
  forall (c : Calendar.t) (w : World) (name_ id_ : option string)
         (sccs : option (list string)) (p : DAVObject.t) (pu : URL)
         (cl : client_ref),
    DAVObject.parent c = Some p ->
    DAVObject.url p = Some pu ->
    DAVObject.client c = Some cl ->
    PyStr.otruthy name_ = false ->
    let idv := fst (settled_id env id_ w) in
    let w0 := snd (settled_id env id_ w) in
    let path := url_join pu (UStr idv) in
    let zimbra_url := url_join pu (pyurl_of_ostr name_) in
    let req := Query mkcalendar (Some path)
                 (Some (Calendar.mkcalendar_body name_ sccs)) 0 in
    status (server env (log w0 ++ [req])) = 201%Z ->
    let probe := server env (log w0 ++ [req; Get zimbra_url]) in
    let outcome := Calendar._create env name_ id_ sccs (c, w) in
    fst outcome = Ok tt
    /\ log (snd (snd outcome)) = log w0 ++ [req; Get zimbra_url]
    /\ DAVObject.id (fst (snd outcome)) = Some idv
    /\ DAVObject.url (fst (snd outcome))
       = Some (if (status probe =? 404)%Z then path else zimbra_url).
Proof.
  intros c w name_ id_ sccs p pu cl Hp Hpu Hc Hn idv w0 path zimbra_url req
         Hst probe outcome.
  assert (Hacc : acceptable (Some 201%Z) (server env (log w0 ++ [req])) = true).
  { unfold acceptable. rewrite Hst. reflexivity. }
  pose proof (proj2 (create_until_mkcalendar c w name_ id_ sccs p pu cl
                       Hp Hpu Hc) Hacc (logged req w0)
                (or_introl (conj Hn eq_refl))) as E.
  cbv zeta in E. subst outcome. subst idv w0 path zimbra_url req. rewrite E.
  subst probe.
  cbn [fst snd log logged]. rewrite <- !app_assoc. cbn [app].
  match goal with
  | |- context [if ?b then _ else _] => destruct b
  end; repeat split; reflexivity.
Qed.
End CalendarCreate.

(** X13 on an example: a server that forbids MKCALENDAR. *)
Lemma refused_mkcalendar_leaves_the_calendar_bound_witness :
  exists c1 w1,
    Calendar.save Fixture.read_only (Fixture.new_calendar, Fixture.w0)
    = (Raise (MkcalendarError "forbidden"), (c1, w1))
    /\ forall w2, Calendar.save Fixture.read_only (c1, w2) = (Ok c1, (c1, w2)).
Proof.
  destruct (refused_mkcalendar_leaves_the_calendar_bound Fixture.read_only
              Fixture.new_calendar Fixture.w0 Fixture.home
              "http://cal.example.com/home/" the_client
              eq_refl eq_refl eq_refl eq_refl eq_refl) as [H1 H2].
  eexists. eexists. split; [exact H1 | exact H2].
Defined.

(** X14 on an example: a calendar without a name on a server that answers
    the probe; the probed URL is the parent's own. *)
Lemma name_based_url_is_adopted_unless_the_probe_is_404_witness :
  DAVObject.url
    (fst (snd (Calendar._create Fixture.aliasing None (Some "c2") None
                 (Fixture.unnamed_calendar, Fixture.w0))))
  = Some "http://cal.example.com/home/".
Proof.
  destruct (name_based_url_is_adopted_unless_the_probe_is_404 Fixture.aliasing
              Fixture.unnamed_calendar Fixture.w0 None (Some "c2") None
              Fixture.home "http://cal.example.com/home/" the_client
              eq_refl eq_refl eq_refl eq_refl eq_refl) as (_ & _ & _ & H).
  exact H.
Defined.

(* ------------------------------------------------------------------ *)
(** ** Listing calendars and events *)

Section Listings.
Context `{U : UrlLib} `{V : VObjectLib}.
Variable env : Env.

Lemma init_child (self : DAVObject.t) (c_url : URL) (w : World) :
  DAVObject.init (DAVObject.client self) (UObj c_url) (Some self) None None None w
  = (Ok (child_object self (client_url w) c_url), w).
Proof.
  unfold DAVObject.init, child_object, constructed_url. run_monad.
  destruct (DAVObject.client self); cbn [pyurl_bool objectify];
    [destruct (url_bool c_url)|]; reflexivity.
Qed.

Lemma build_calendars_spec (self : CalendarSet.t)
    (data : list (URL * option string)) (w : World) :
  forall cals,
    CalendarSetMethods.build_calendars self data cals w
    = (Ok (cals ++ map (fun x => child_object self (client_url w) (fst x)) data),
       w).
Proof.
  induction data as [|[c_url c_type] data IH]; intros cals.
  - cbn. rewrite app_nil_r. reflexivity.
  - cbn [CalendarSetMethods.build_calendars].
    rewrite (bind_ok _ _ _ _ _ (init_child self c_url w)).
    rewrite IH. cbn [map fst]. rewrite <- app_assoc. reflexivity.
Qed.

(** X15: [calendars] issues no request beyond the listing of the children
    of calendar type: when that listing raises, so does [calendars]; when
    it returns, [calendars] returns one Calendar per listed child, in
    order, each with the set as its parent, the set's client, no id and no
    name, and as URL the child's URL handed to the constructor. *)
Theorem calendars_wraps_the_calendar_children :
  forall (self : CalendarSet.t) (w : World),
    CalendarSetMethods.calendars env self w
    = match DAVObject.children env self (Some Tags.Calendar) w with
      | (Ok data, w1) =>
          (Ok (map (fun x => child_object self (client_url w1) (fst x)) data),
           w1)
      | (Raise e, w1) => (Raise e, w1)
      end.
Proof.
  intros self w. unfold CalendarSetMethods.calendars, bind.
  destruct (DAVObject.children env self (Some Tags.Calendar) w) as [[data|e] w1];
    [|reflexivity].
  apply (build_calendars_spec self data w1 []).
Qed.

Lemma init_child_event (self : DAVObject.t) (e_url : URL) (w : World) :
  CalendarObjectResource.init (DAVObject.client self) (UObj e_url) None
    (Some self) None w
  = (Ok (child_event self (client_url w) e_url), w).
Proof.
  unfold CalendarObjectResource.init.
  rewrite (bind_ok _ _ _ _ _ (init_child self e_url w)).
  reflexivity.
Qed.

Lemma build_events_spec (self : Calendar.t)
    (data : list (URL * option string)) (w : World) :
  forall all,
    CalendarMethods.build_events self data all w
    = (Ok (all ++ map (fun x => child_event self (client_url w) (fst x)) data),
       w).
Proof.
  induction data as [|[e_url e_type] data IH]; intros all.
  - cbn. rewrite app_nil_r. reflexivity.
  - cbn [CalendarMethods.build_events].
    rewrite (bind_ok _ _ _ _ _ (init_child_event self e_url w)).
    rewrite IH. cbn [map fst]. rewrite <- app_assoc. reflexivity.
Qed.

(** X16: [events] returns one Event per child of the calendar, of whatever
    resource type, in order and without content; so [save] on any Event it
    returns, as it is, issues no request and changes nothing. *)
Theorem events_are_unloaded :
  forall (self : Calendar.t) (w w1 : World)
         (evs : list CalendarObjectResource.t),
    CalendarMethods.events env self w = (Ok evs, w1) ->
    (exists data,
        DAVObject.children env self None w = (Ok data, w1)
        /\ evs = map (fun x => child_event self (client_url w1) (fst x)) data)
    /\ forall e w2,
         In e evs ->
         CalendarObjectResource.get_data e = None
         /\ CalendarObjectResource.save env (e, w2) = (Ok e, (e, w2)).
Proof.
  intros self w w1 evs H.
  unfold CalendarMethods.events, bind in H.
  destruct (DAVObject.children env self None w) as [[data|e] w'];
    [|discriminate].
  rewrite (build_events_spec self data w' []) in H. inversion H; subst.
  split.
  - exists data. split; reflexivity.
  - intros e w2 Hin. cbn [app] in Hin. apply in_map_iff in Hin as [x [<- _]].
    split; reflexivity.
Qed.

Lemma children_loop_types (self : DAVObject.t) (ty : string)
    (properties : DAVObject.propmap) (paths : list (option string)) :
  forall c0 c,
    DAVObject.children_loop self (Some ty) properties paths c0 = Ok c ->
    (forall x, In x c0 -> snd x = Some ty) ->
    forall x, In x c -> snd x = Some ty.
Proof.
  induction paths as [|path paths IH]; intros c0 c H H0.
  - inversion H; subst. exact H0.
  - cbn [DAVObject.children_loop] in H.
    destruct (Dict.get okey_eqb path properties) as [pv|]; [|discriminate].
    destruct (Dict.get String.eqb Tags.ResourceType pv) as [rt|]; [|discriminate].
    rewrite orb_false_r in H.
    destruct (okey_eqb rt (Some ty)) eqn:E.
    + apply okey_eqb_eq in E. subst rt.
      destruct (DAVObject.url self) as [u|]; [|discriminate].
      destruct (negb _).
      * apply (IH _ _ H). intros x Hx. apply in_app_iff in Hx as [Hx|[<-|[]]];
          [apply H0, Hx | reflexivity].
      * apply (IH _ _ H H0).
    + apply (IH _ _ H H0).
Qed.

(** X17: when a resource type is requested, every pair [children] returns
    carries exactly that resource type. *)
Theorem children_of_a_type_all_have_that_type :
  forall (self : DAVObject.t) (ty : string) (w w1 : World)
         (c : list (URL * option string)),
    DAVObject.children env self (Some ty) w = (Ok c, w1) ->
    forall cu rt, In (cu, rt) c -> rt = Some ty.
Proof.
  intros self ty w w1 c H cu rt Hin.
  unfold DAVObject.children, bind, lift in H.
  destruct (DAVObject._query_properties env self _ 1 w) as [[resp|e] w'];
    [|discriminate].
  destruct (DAVObject._handle_prop_response resp _ (Some ty) ET.what_tag)
    as [properties|e]; [|discriminate].
  destruct (DAVObject.children_loop self (Some ty) properties
              (Dict.keys properties) []) as [c'|e] eqn:E; [|discriminate].
  inversion H; subst.
  apply (children_loop_types self ty properties _ [] c E (fun x F => match F with end)
           (cu, rt) Hin).
Qed.

(** X18: [CalendarSet.calendar] does not communicate with the server: on a
    set with a URL it returns, in an unchanged world, a calendar with the
    given name and id whose parent is the set and which has a URL, so that
    [save] on this calendar issues no request either. *)
Theorem calendar_builds_a_bound_calendar_offline :
  forall (self : CalendarSet.t) (name_ cal_id : option string) (w : World)
         (u : URL),
    DAVObject.url self = Some u ->
    exists c,
      CalendarSetMethods.calendar self name_ cal_id w = (Ok c, w)
      /\ DAVObject.name c = name_ /\ DAVObject.id c = cal_id
      /\ DAVObject.parent c = Some self
      /\ DAVObject.url c
         = constructed_url (DAVObject.client self) (client_url w)
             (url_join u (pyurl_of_ostr cal_id))
      /\ forall w2, Calendar.save env (c, w2) = (Ok c, (c, w2)).
Proof.
  intros self name_ cal_id w u Hu.
  unfold CalendarSetMethods.calendar. rewrite Hu.
  unfold DAVObject.init. run_monad. unfold constructed_url.
  eexists. split; [reflexivity|]. cbn [DAVObject.name DAVObject.id
    DAVObject.parent DAVObject.url pyurl_bool objectify].
  repeat split.
  - destruct (DAVObject.client self);
      [destruct (url_bool (url_join u (pyurl_of_ostr cal_id)))|]; reflexivity.
  - intros w2.
    destruct (DAVObject.client self);
      [destruct (url_bool (url_join u (pyurl_of_ostr cal_id)))|];
      eapply save_bound_calendar; reflexivity.
Qed.
End Listings.

(** X16 on an example: the events of the home set's listing. *)
Lemma events_are_unloaded_witness :
  exists evs w1,
    CalendarMethods.events (V := SimpleCal.lib) Fixture.lister Fixture.home
      Fixture.w0 = (Ok evs, w1)
    /\ forall e w2,
         In e evs ->
         CalendarObjectResource.save Fixture.lister (e, w2) = (Ok e, (e, w2)).
Proof.
  assert (E : exists evs w1,
             CalendarMethods.events (V := SimpleCal.lib) Fixture.lister
               Fixture.home Fixture.w0 = (Ok evs, w1)).
  { vm_compute. eexists. eexists. reflexivity. }
  destruct E as (evs & w1 & E).
  exists evs, w1. split; [exact E|].
  intros e w2 Hin.
  apply (proj2 (events_are_unloaded (V := SimpleCal.lib) Fixture.lister
                  Fixture.home Fixture.w0 w1 evs E) e w2 Hin).
Defined.

(** X17 on an example: the calendars among the children of the home set. *)
Lemma children_of_a_type_all_have_that_type_witness :
  exists c w1,
    DAVObject.children (U := SimpleUrl.lib) Fixture.lister Fixture.home
      (Some Tags.Calendar) Fixture.w0 = (Ok c, w1)
    /\ forall cu rt, In (cu, rt) c -> rt = Some Tags.Calendar.
Proof.
  assert (E : exists c w1,
             DAVObject.children (U := SimpleUrl.lib) Fixture.lister
               Fixture.home (Some Tags.Calendar) Fixture.w0 = (Ok c, w1)).
  { vm_compute. eexists. eexists. reflexivity. }
  destruct E as (c & w1 & E).
  exists c, w1. split; [exact E|].
  apply (children_of_a_type_all_have_that_type Fixture.lister Fixture.home
           Tags.Calendar Fixture.w0 w1 c E).
Defined.

(** X18 on an example: the calendar work of the home set. *)
Lemma calendar_builds_a_bound_calendar_offline_witness :
  exists c,
    CalendarSetMethods.calendar Fixture.home (Some "Work") (Some "work")
      Fixture.w0 = (Ok c, Fixture.w0)
    /\ DAVObject.url c = Some "http://cal.example.com/home/work".
Proof.
  destruct (calendar_builds_a_bound_calendar_offline Fixture.friendly
              Fixture.home (Some "Work") (Some "work") Fixture.w0
              "http://cal.example.com/home/" eq_refl)
    as (c & Hc & _ & _ & _ & Hu & _).
  exists c. split; [exact Hc | exact Hu].
Defined.

(* ------------------------------------------------------------------ *)
(** ** Searching a calendar *)

Section Searches.
Context `{U : UrlLib} `{V : VObjectLib}.
Variable env : Env.

(** The constructor call of the search loop. *)
Lemma init_found (self : Calendar.t) (cu : URL) (data : option string)
    (w : World) :
  (forall d, data = Some d -> readOne (to_unicode (vcal_fix d)) <> None) ->
  exists e,
    CalendarObjectResource.init (DAVObject.client self) (UObj cu) data
      (Some self) None w = (Ok e, w)
    /\ CalendarObjectResource.base e = child_object self (client_url w) cu
    /\ CalendarObjectResource._data e = option_map vcal_fix data
    /\ CalendarObjectResource._instance e
       = match data with
         | Some d => readOne (to_unicode (vcal_fix d))
         | None => None
         end.
Proof.
  intros Hparse. unfold CalendarObjectResource.init.
  rewrite (bind_ok _ _ _ _ _ (init_child self cu w)).
  destruct data as [d|].
  - unfold CalendarObjectResource.set_data. run_monad.
    cbn [CalendarObjectResource._data CalendarObjectResource.set__data].
    destruct (readOne (to_unicode (vcal_fix d))) as [inst|] eqn:E.
    + eexists. split; [reflexivity|]. cbn. repeat split.
    + exfalso. apply (Hparse d eq_refl E).
  - run_monad. eexists. split; [reflexivity|]. repeat split.
Qed.

Lemma build_matches_spec (self : Calendar.t) (results : DAVObject.propmap)
    (u : URL) (w : World) :
  DAVObject.url self = Some u ->
  holds_requested_tags [elem Tags.CalendarData] results ->
  all_data_parse results ->
  forall paths matches,
    (forall r, In r paths -> In r (Dict.keys results)) ->
    exists evs,
      CalendarMethods.build_matches self results paths matches w
      = (Ok (matches ++ evs), w)
      /\ Forall2 (found_in self (client_url w) u results) paths evs.
Proof.
  intros Hu Htags Hparse.
  induction paths as [|r paths IH]; intros matches Hkeys.
  - exists []. split; [cbn; now rewrite app_nil_r | constructor].
  - cbn [CalendarMethods.build_matches].
    destruct (dict_key_get r results (Hkeys r (or_introl eq_refl))) as [pv Hpv].
    destruct (Dict.get String.eqb Tags.CalendarData pv) as [data|] eqn:Hdata.
    2:{ exfalso.
        apply (proj2 (Htags r pv Hpv Tags.CalendarData)); [|exact Hdata].
        left. reflexivity. }
    destruct (init_found self (url_join u (pyurl_of_ostr r)) data w)
      as (e & He & Hb & Hd & Hi).
    { intros d ->. apply (Hparse r pv d Hpv Hdata). }
    destruct (IH (matches ++ [e])) as (evs & Hevs & Hall).
    { intros r' Hr'. apply Hkeys. now right. }
    exists (e :: evs). split.
    + rewrite Hu. run_monad. rewrite Hpv, Hdata. run_monad.
      rewrite He. cbv beta iota. rewrite Hevs.
      rewrite <- app_assoc. reflexivity.
    + constructor; [|exact Hall].
      exists pv, data. repeat split; assumption.
Qed.

Lemma handled_tags (resp : response) (props : list ET.xml)
    (type : option string) (what : ET.what_attr)
    (results : DAVObject.propmap) :
  DAVObject._handle_prop_response resp props type what = Ok results ->
  holds_requested_tags props results.
Proof.
  intros H. unfold DAVObject._handle_prop_response in H.
  destruct (tree resp); [|discriminate].
  apply (handle_responses_tags _ _ _ _ _ Dict.empty _) in H; [exact H|].
  intros k pv H'. discriminate.
Qed.

(** X19: [date_search] on a calendar with a client and a URL issues one
    REPORT at depth 1 and looks at the body of the answer only, not at its
    HTTP status: when the body parses into [results] and every
    calendar-data text in it parses, it returns one Event per path of
    [results], in order, each under the calendar, at the path joined to the
    calendar's URL and holding the fixed calendar-data text and its
    instance. *)
Theorem date_search_wraps_every_returned_path :
  forall (self : Calendar.t) (start : string) (end_ : option string)
         (w : World) (cl : client_ref) (u : URL)
         (results : DAVObject.propmap),
    DAVObject.client self = Some cl ->
    DAVObject.url self = Some u ->
    let req := Query report (Some u)
                 (Some (CalendarMethods.date_query start end_)) 1 in
    let resp := server env (log w ++ [req]) in
    DAVObject._handle_prop_response resp [elem Tags.CalendarData] None
      ET.what_text = Ok results ->
    all_data_parse results ->
    exists evs,
      CalendarMethods.date_search env self start end_ w = (Ok evs, logged req w)
      /\ Forall2 (found_in self (client_url w) u results)
           (Dict.keys results) evs.
Proof.
  intros self start end_ w cl u results Hc Hu req resp Hh Hparse.
  destruct (build_matches_spec self results u (logged req w) Hu
              (handled_tags _ _ _ _ _ Hh) Hparse (Dict.keys results) []
              (fun _ H => H)) as (evs & Hevs & Hall).
  exists evs. split; [|exact Hall].
  unfold CalendarMethods.date_search. rewrite Hc, Hu. run_monad.
  unfold client_call. cbn [log logged]. fold req. fold resp. rewrite Hh.
  exact Hevs.
Qed.

(** X20: [todos] behaves likewise, with its own query and whatever the sort
    key: one REPORT at depth 1, no look at the HTTP status, and one object
    per path of the parsed body, in order. *)
Theorem todos_wraps_every_returned_path :
  forall (self : Calendar.t) (sort_key : string) (w : World)
         (cl : client_ref) (u : URL) (results : DAVObject.propmap),
    DAVObject.client self = Some cl ->
    DAVObject.url self = Some u ->
    let req := Query report (Some u) (Some CalendarMethods.todo_query) 1 in
    let resp := server env (log w ++ [req]) in
    DAVObject._handle_prop_response resp [elem Tags.CalendarData] None
      ET.what_text = Ok results ->
    all_data_parse results ->
    exists evs,
      CalendarMethods.todos env self sort_key w = (Ok evs, logged req w)
      /\ Forall2 (found_in self (client_url w) u results)
           (Dict.keys results) evs.
Proof.
  intros self sort_key w cl u results Hc Hu req resp Hh Hparse.
  destruct (build_matches_spec self results u (logged req w) Hu
              (handled_tags _ _ _ _ _ Hh) Hparse (Dict.keys results) []
              (fun _ H => H)) as (evs & Hevs & Hall).
  exists evs. split; [|exact Hall].
  unfold CalendarMethods.todos. rewrite Hc, Hu. run_monad.
  unfold client_call. cbn [log logged]. fold req. fold resp. rewrite Hh.
  exact Hevs.
Qed.

(** X21: [add_todo] with a text that parses to an instance without a
    vevent whose vtodo has the uid [uid]: the loop over the component names
    passes vevent by, and one PUT of the serialized instance goes to
    [uid].ics joined to the calendar's URL; answered with 201 or 204, it
    yields the object with that URL and the id [uid]. *)
Theorem add_todo_puts_uid_ics_under_the_calendar :
  forall (self : Calendar.t) (w : World) (ical uid : string)
         (inst : vinstance) (c : vcomponent) (u : URL) (cl : client_ref),
    readOne (to_unicode (vcal_fix ical)) = Some inst ->
    component inst "vevent" = None ->
    component inst "vtodo" = Some c ->
    uid_value c = Some uid ->
    DAVObject.url self = Some u ->
    DAVObject.client self = Some cl ->
    let target := url_join u (UStr (uid ++ ".ics")) in
    let req := Put target (serialize inst) CalendarObjectResource.content_type in
    let resp := server env (log w ++ [req]) in
    status resp = 201%Z \/ status resp = 204%Z ->
    CalendarMethods.add_todo env self ical w
    = (Ok (created (fresh_event self ical inst) (Some target) (Some uid)),
       logged req w).
Proof.
  intros self w ical uid inst c u cl Hp Hne Hc Hu Hurl Hcl target req resp Hst.
  unfold CalendarMethods.add_todo.
  assert (Hinit : CalendarObjectResource.init (DAVObject.client self) UNone
                    (Some ical) (Some self) None w
                  = (Ok (fresh_event self ical inst), w)).
  { unfold CalendarObjectResource.init, DAVObject.init,
      CalendarObjectResource.set_data, fresh_event.
    rewrite Hcl. run_monad.
    cbn [pyurl_bool objectify CalendarObjectResource._data
         CalendarObjectResource.set__data].
    rewrite Hp. reflexivity. }
  rewrite (bind_ok _ _ _ _ _ Hinit).
  unfold call_on.
  rewrite (save_with_instance env (fresh_event self ical inst) w inst eq_refl).
  assert (Hid : CalendarObjectResource.derive_id (fresh_event self ical inst)
                  None None = Ok (Some uid)).
  { unfold CalendarObjectResource.derive_id,
      CalendarObjectResource.get_instance, fresh_event.
    cbn [CalendarObjectResource._instance
         CalendarObjectResource.uid_of_instance].
    rewrite Hne, Hc, Hu. reflexivity. }
  change (DAVObject.id (CalendarObjectResource.base (fresh_event self ical inst)))
    with (@None string).
  change (save_path (fresh_event self ical inst)) with (@None string).
  rewrite (create_outcome env (fresh_event self ical inst) w (serialize inst)
             None None (Some uid) (uid ++ ".ics") self u cl
             Hid eq_refl eq_refl Hurl Hcl).
  fold target. fold req. fold resp.
  unfold CalendarObjectResource.put_result.
  destruct Hst as [Hst|Hst]; rewrite Hst; reflexivity.
Qed.
End Searches.

(* ------------------------------------------------------------------ *)
(** ** Building a principal *)

Section PrincipalInit.
Context `{U : UrlLib}.
Variable env : Env.

(** X22: [Principal.__init__] needs a client (AttributeError without one,
    before any request).  With a URL it issues no request and the
    principal's URL is the given one joined to the session's base URL;
    without a URL it asks the session's base URL for
    current-user-principal and joins the answer to the base URL.  Either
    way the calendar home set of the new principal is unresolved. *)
Theorem principal_url_is_given_or_discovered :
  forall (w : World),
    (forall url_, PrincipalMethods.init env None url_ w
                  = (Raise AttributeError, w))
    /\ (forall cl url_,
          url_ <> UNone ->
          PrincipalMethods.init env (Some cl) url_ w
          = (Ok (principal_at (Some cl)
                   (url_join (client_url w) (objectified url_))), w))
    /\ (forall cl cup w1 v,
          DAVObject.get_properties env
            (DAVObject.mk None (Some (client_url w)) (Some cl) None None None)
            [elem Tags.CurrentUserPrincipal] 0 w = (Ok cup, w1) ->
          Dict.get String.eqb (Tags.D "current-user-principal") cup = Some v ->
          PrincipalMethods.init env (Some cl) UNone w
          = (Ok (principal_at (Some cl)
                   (url_join (client_url w1) (objectified (pyurl_of_ostr v)))),
             w1)).
Proof.
  intros w. split; [|split].
  - intros [| |]; reflexivity.
  - intros cl [| |] Hne; try reflexivity. congruence.
  - intros cl cup w1 v Hg Hv.
    unfold PrincipalMethods.init. run_monad. rewrite Hg.
    change "{DAV:}current-user-principal"
      with (Tags.D "current-user-principal").
    rewrite Hv. reflexivity.
Qed.
End PrincipalInit.

(** The parsed body of the example answer holds one text, which parses. *)
Lemma example_data_parse (results : DAVObject.propmap) :
  results = [(Some "/home/work/abc123.ics",
              [(Tags.CalendarData, Some "vtodo:abc123")])] ->
  all_data_parse (V := SimpleCal.lib) results.
Proof.
  intros -> r pv d H1 H2. cbn in H1.
  destruct (okey_eqb r (Some "/home/work/abc123.ics")); [|discriminate].
  inversion H1; subst pv. vm_compute in H2. inversion H2; subst d.
  vm_compute. discriminate.
Qed.

(** X19 on an example: the REPORT is answered with status 404 and a body
    that lists one object. *)
Lemma date_search_wraps_every_returned_path_witness :
  exists evs w1,
    CalendarMethods.date_search (V := SimpleCal.lib) Fixture.confused
      Fixture.work "20240101T000000Z" None Fixture.w0 = (Ok evs, w1)
    /\ length evs = 1.
Proof.
  edestruct (date_search_wraps_every_returned_path (V := SimpleCal.lib)
               Fixture.confused Fixture.work "20240101T000000Z" None
               Fixture.w0 the_client "http://cal.example.com/home/work/")
    as (evs & Hevs & Hall).
  - reflexivity.
  - reflexivity.
  - vm_compute. reflexivity.
  - apply example_data_parse. reflexivity.
  - exists evs. eexists. split; [exact Hevs|].
    apply Forall2_length in Hall. rewrite <- Hall. reflexivity.
Defined.

(** X20 on an example: the same server asked for the to-dos. *)
Lemma todos_wraps_every_returned_path_witness :
  exists evs w1,
    CalendarMethods.todos (V := SimpleCal.lib) Fixture.confused
      Fixture.work "DUE" Fixture.w0 = (Ok evs, w1)
    /\ length evs = 1.
Proof.
  edestruct (todos_wraps_every_returned_path (V := SimpleCal.lib)
               Fixture.confused Fixture.work "DUE" Fixture.w0 the_client
               "http://cal.example.com/home/work/")
    as (evs & Hevs & Hall).
  - reflexivity.
  - reflexivity.
  - vm_compute. reflexivity.
  - apply example_data_parse. reflexivity.
  - exists evs. eexists. split; [exact Hevs|].
    apply Forall2_length in Hall. rewrite <- Hall. reflexivity.
Defined.

(** X21 on an example: the to-do abc123 is added to the calendar Work. *)
Lemma add_todo_puts_uid_ics_under_the_calendar_witness :
  exists e w',
    CalendarMethods.add_todo (V := SimpleCal.lib) Fixture.confused
      Fixture.work "vtodo:abc123" Fixture.w0 = (Ok e, w')
    /\ DAVObject.id (CalendarObjectResource.base e) = Some "abc123"
    /\ DAVObject.url (CalendarObjectResource.base e)
       = Some "http://cal.example.com/home/work/abc123.ics".
Proof.
  eexists. eexists. split.
  - apply (add_todo_puts_uid_ics_under_the_calendar (V := SimpleCal.lib)
             Fixture.confused Fixture.work Fixture.w0 "vtodo:abc123" "abc123"
             ("vtodo", "abc123") "abc123" "http://cal.example.com/home/work/"
             the_client eq_refl eq_refl eq_refl eq_refl eq_refl eq_refl).
    right. reflexivity.
  - split; reflexivity.
Defined.

(** X22 on an example: the principal is discovered from the base URL. *)
Lemma principal_url_is_given_or_discovered_witness :
  exists w1,
    PrincipalMethods.init Fixture.introducing (Some the_client) UNone Fixture.w0
    = (Ok (principal_at (U := SimpleUrl.lib) (Some the_client)
             "http://cal.example.com/principals/u1/"), w1).
Proof.
  assert (E : exists cup w1,
             DAVObject.get_properties Fixture.introducing
               (DAVObject.mk None (Some (client_url Fixture.w0))
                  (Some the_client) None None None)
               [elem Tags.CurrentUserPrincipal] 0 Fixture.w0 = (Ok cup, w1)
             /\ Dict.get String.eqb (Tags.D "current-user-principal") cup
                = Some (Some "/principals/u1/")
             /\ client_url w1 = "http://cal.example.com/").
  { vm_compute. eexists. eexists. repeat split. }
  destruct E as (cup & w1 & Hg & Hv & Hb).
  exists w1.
  rewrite (proj2 (proj2 (principal_url_is_given_or_discovered
                           Fixture.introducing Fixture.w0))
             the_client cup w1 (Some "/principals/u1/") Hg Hv).
  rewrite Hb. reflexivity.
Defined.
